(** * Orange.modelling.base: the [Fitter] dispatcher

    A shallow embedding of [Orange/modelling/base.py]: the metaclass check
    [FitterMeta.__new__], and the methods of [Fitter] ([__init__],
    [__call__], [get_learner], [__get_kwargs], [__handled_problem_types],
    [_get_learner_kwargs], [__getattr__]) as computations in a state and
    exception monad over the fields of one [Fitter] instance and the store
    of the learner objects it has built. *)

From stdpp Require Import base option list strings gmap fin_maps fin_sets.
From Stdlib Require Import ZArith.

Set Warnings "-register-all".
Open Scope string_scope.

(** ** Python values *)

(** Values found in the configuration, in learner attributes and as models. *)
Inductive pyval :=
| PNone
| PBool (b : bool)
| PInt (z : Z)
| PStr (s : string)
| PObj (repr : string).

#[global] Instance pyval_inhabited : Inhabited pyval := populate PNone.

(** Exceptions.  An exception escaping learner code (its constructor or its
    call) is carried through unchanged as [Propagated]; the other
    constructors are raised by the code of this module or by the interpreter
    on its behalf.  [Stuck] marks a dangling reference into the store, which
    no state built by [__init__] and the methods can hold. *)
Inductive exn :=
| AssertionError (msg : string)
| AttributeError (msg : string)
| TypeError (msg : string)
| KeyError (key : string)
| IndexError (msg : string)
| Propagated (e : string)
| Stuck.

(** ** Datasets: [data.domain.has_discrete_class] *)

Record Domain := { has_discrete_class : bool }.
Record Dataset := { domain : Domain; rows : list (list Z) }.

(** ** Learner classes *)

(** The code object of a Python function: [co_varnames] lists the declared
    parameters first ([self] included) and then the local variables of the
    body; [co_nparams] is how many of them are parameters. *)
Record Code := { co_nparams : nat; co_varnames : list string }.

Definition declared_params (c : Code) : list string := take (co_nparams c) (co_varnames c).
Definition local_variables (c : Code) : list string := drop (co_nparams c) (co_varnames c).

(** A learner class as the fitter uses it.  [lc_init_code] is the code
    object of its [__init__].  [lc_init] runs the constructor on keyword
    arguments: it raises, or gives the attribute view of the new instance,
    that is every name [getattr] finds on it (what [__init__] set and what
    the class provides: class attributes, methods, properties).  [lc_call]
    is what calling an instance with that view on a dataset returns or
    raises; learners are taken to fit without rebinding their own
    attributes, so a call leaves the view as it is. *)
Record LearnerClass := {
  lc_name : string;
  lc_init_code : Code;
  lc_init : gmap string pyval → string + gmap string pyval;
  lc_call : gmap string pyval → Dataset → string + pyval
}.

(** [LearnerTypes = namedtuple('LearnerTypes', ['classification', 'regression'])] *)
Record LearnerTypes := {
  classification : option LearnerClass;
  regression : option LearnerClass
}.

(** [CLASSIFICATION, REGRESSION = range(2)] *)
Inductive ProblemKind := CLASSIFICATION | REGRESSION.

Definition kind_index (k : ProblemKind) : Z :=
  match k with CLASSIFICATION => 0 | REGRESSION => 1 end.

#[global] Instance ProblemKind_eq_dec : EqDecision ProblemKind.
Proof. solve_decision. Defined.

#[global] Instance ProblemKind_countable : Countable ProblemKind.
Proof.
  refine (inj_countable'
            (λ k, match k with CLASSIFICATION => false | REGRESSION => true end)
            (λ b : bool, if b then REGRESSION else CLASSIFICATION) _).
  by intros [].
Defined.

Definition other_kind (k : ProblemKind) : ProblemKind :=
  match k with CLASSIFICATION => REGRESSION | REGRESSION => CLASSIFICATION end.

(** ** Classes and the metaclass *)

(** Any other object a class body can bind, as far as this module looks at
    it: the name of its type, its truth value, its [classification] and
    [regression] attributes when it has them, and its items when it is a
    sequence ([None] when it cannot be subscripted). *)
Record PyObject := {
  po_type : string;
  po_truth : bool;
  po_classification : option (option LearnerClass);
  po_regression : option (option LearnerClass);
  po_items : option (list (option LearnerClass))
}.

(** An object without these attributes that cannot be subscripted. *)
Definition plain_object (type : string) (truth : bool) : PyObject :=
  {| po_type := type; po_truth := truth; po_classification := None;
     po_regression := None; po_items := None |}.

(** Values bound in a class body. *)
Inductive nsval :=
| NsNone
| NsBool (b : bool)
| NsInt (z : Z)
| NsStr (s : string)
| NsLearnerTypes (lt : LearnerTypes)
| NsOther (o : PyObject).

(** Python truth value. *)
Definition truthy (v : nsval) : bool :=
  match v with
  | NsNone => false
  | NsBool b => b
  | NsInt z => negb (z =? 0)%Z
  | NsStr s => negb (String.eqb s "")
  | NsLearnerTypes _ => true
  | NsOther o => po_truth o
  end.

(** [isinstance(kwargs.get('__fits__'), LearnerTypes)]; [dict.get] gives
    [None] for a missing key. *)
Definition isinstance_LearnerTypes (v : option nsval) : bool :=
  match v with
  | Some (NsLearnerTypes _) => true
  | _ => false
  end.

(** A class object: its name, its bases and the namespace of its body. *)
Inductive PyClass := mkClass (name : string) (bases : list PyClass) (dict : gmap string nsval).

(** Class attribute lookup: the class's own namespace first, then the bases
    from left to right (the method resolution order of a single-inheritance
    chain). *)
Fixpoint class_getattr (c : PyClass) (a : string) : option nsval :=
  match c with
  | mkClass _ bases d =>
      match d !! a with
      | Some v => Some v
      | None =>
          (fix first (bs : list PyClass) : option nsval :=
             match bs with
             | [] => None
             | b :: bs' =>
                 match class_getattr b a with
                 | Some v => Some v
                 | None => first bs'
                 end
             end) bases
      end
  end.

Definition invalid_fits_msg : string :=
  "The `__fits__` property must be an instance of `Orange.base.LearnerTypes`.".

(** [FitterMeta.__new__(mcs, name, bases, kwargs)] *)
Definition FitterMeta_new (name : string) (bases : list PyClass)
    (kwargs : gmap string nsval) : exn + PyClass :=
  if truthy (default (NsBool false) (kwargs !! "name"))
     && negb (isinstance_LearnerTypes (kwargs !! "__fits__"))
  then inl (AssertionError invalid_fits_msg)
  else inr (mkClass name bases kwargs).

(** [Orange.base.Learner] lives outside this module; the fitter takes no
    class attribute from it, so its namespace is left empty here. *)
Definition Learner : PyClass := mkClass "Learner" [] ∅.

(** The data attributes of the body of [class Fitter]. *)
Definition Fitter_body : gmap string nsval :=
  <["__fits__" := NsNone]>
  (<["__returns__" := NsOther (plain_object "type" true)]>
  (<["CLASSIFICATION" := NsInt 0]>
  (<["REGRESSION" := NsInt 1]> ∅))).

Definition Fitter : PyClass := mkClass "Fitter" [Learner] Fitter_body.

(** ** The instance state *)

Definition loc := nat.

(** A learner instance in the store: its class and its attribute view,
    that is every name [getattr] finds on it. *)
Record LearnerObj := {
  obj_class : LearnerClass;
  obj_attrs : gmap string pyval
}.

(** Ghost record of one constructor call made by [get_learner]: the problem
    type it was made for, the class, the keyword arguments passed, and the
    new instance when the constructor returned. *)
Record CtorCall := {
  cc_kind : option ProblemKind;
  cc_class : string;
  cc_kwargs : gmap string pyval;
  cc_result : option loc
}.

(** The fields of a [Fitter] instance, the
    store of the learner objects, and the ghost log of constructor calls. *)
Record State := mkState {
  cls : PyClass;
  kwargs : gmap string pyval;
  problem_type : option ProblemKind;
  __learners : gmap ProblemKind (option loc);
  use_default_preprocessors : pyval;
  heap : list LearnerObj;
  ctor_log : list CtorCall
}.

Definition set_problem_type (pt : option ProblemKind) (s : State) : State :=
  mkState (cls s) (kwargs s) pt (__learners s) (use_default_preprocessors s) (heap s) (ctor_log s).
Definition set_learners (m : gmap ProblemKind (option loc)) (s : State) : State :=
  mkState (cls s) (kwargs s) (problem_type s) m (use_default_preprocessors s) (heap s) (ctor_log s).
Definition set_heap (h : list LearnerObj) (s : State) : State :=
  mkState (cls s) (kwargs s) (problem_type s) (__learners s) (use_default_preprocessors s) h (ctor_log s).
Definition set_ctor_log (g : list CtorCall) (s : State) : State :=
  mkState (cls s) (kwargs s) (problem_type s) (__learners s) (use_default_preprocessors s) (heap s) g.

(** ** The monad: state that survives a raised exception *)

Definition M (A : Type) : Type := State → State * (exn + A).

#[global] Instance M_ret : MRet M := λ A (x : A) (s : State), (s, inr x).
#[global] Instance M_bind : MBind M := λ A B (f : A → M B) (m : M A) (s : State),
  match m s with
  | (s', inr x) => f x s'
  | (s', inl e) => (s', inl e)
  end.

Definition raise {A} (e : exn) : M A := λ s, (s, inl e).
Definition gets {A} (f : State → A) : M A := λ s, (s, inr (f s)).
Definition modify (f : State → State) : M unit := λ s, (f s, inr ()).
Definition lift {A} (r : exn + A) : M A := λ s, (s, r).

(** ** Methods of [Fitter] *)

(** [Fitter.__init__(self, preprocessors=None, **kwargs)].  [c] is the class
    being instantiated; [udp] is the value the inherited [Learner.__init__]
    leaves in [self.use_default_preprocessors]. *)
Definition Fitter_init (c : PyClass) (udp : pyval) (preprocessors : pyval)
    (kw : gmap string pyval) : State :=
  {| cls := c;
     kwargs := <["preprocessors" := preprocessors]> kw;
     problem_type := None;
     __learners := <[CLASSIFICATION := None]> (<[REGRESSION := None]> ∅);
     use_default_preprocessors := udp;
     heap := [];
     ctor_log := [] |}.

(** [self.__fits__]: [Fitter] binds the name, so the class lookup finds it. *)
Definition self_fits : M nsval :=
  c ← gets cls;
  match class_getattr c "__fits__" with
  | Some v => mret v
  | None => raise (AttributeError "__fits__")
  end.

Definition no_attribute (type attr : string) : string :=
  "'" ++ type ++ "' object has no attribute '" ++ attr ++ "'".

Definition type_name (v : nsval) : string :=
  match v with
  | NsNone => "NoneType"
  | NsBool _ => "bool"
  | NsInt _ => "int"
  | NsStr _ => "str"
  | NsLearnerTypes _ => "LearnerTypes"
  | NsOther o => po_type o
  end.

(** [fits.classification] and [fits.regression]: the field of a
    [LearnerTypes], the attribute of another object that has one, and an
    attribute error on everything else. *)
Definition fits_attr (field : string) (proj : LearnerTypes → option LearnerClass)
    (oproj : PyObject → option (option LearnerClass)) (fits : nsval) :
    exn + option LearnerClass :=
  match fits with
  | NsLearnerTypes lt => inr (proj lt)
  | NsOther o =>
      match oproj o with
      | Some x => inr x
      | None => inl (AttributeError (no_attribute (po_type o) field))
      end
  | v => inl (AttributeError (no_attribute (type_name v) field))
  end.

Definition fits_field (field : string) (proj : LearnerTypes → option LearnerClass)
    (oproj : PyObject → option (option LearnerClass)) (fits : nsval) :
    M (option LearnerClass) :=
  lift (fits_attr field proj oproj fits).

Definition slot (lt : LearnerTypes) (k : ProblemKind) : option LearnerClass :=
  match kind_index k with
  | 0%Z => classification lt
  | _ => regression lt
  end.

Definition not_subscriptable (type : string) : string :=
  "'" ++ type ++ "' object is not subscriptable".

Definition bad_index : string :=
  "indices must be integers or slices, not NoneType".

(** [fits[problem_type]]: the field of a [LearnerTypes] at that index, the
    item of another sequence, and a type error on what cannot be
    subscripted.  ([get_learner] comes here only behind its guard, which has
    raised before on a value without the two attributes.) *)
Definition fits_item (fits : nsval) (pt : option ProblemKind) : exn + option LearnerClass :=
  match fits, pt with
  | NsLearnerTypes lt, Some k => inr (slot lt k)
  | NsLearnerTypes _, None => inl (TypeError ("tuple " ++ bad_index))
  | NsOther o, pt =>
      match po_items o, pt with
      | Some items, Some k =>
          match items !! Z.to_nat (kind_index k) with
          | Some x => inr x
          | None => inl (IndexError (po_type o ++ " index out of range"))
          end
      | Some _, None => inl (TypeError (po_type o ++ " " ++ bad_index))
      | None, _ => inl (TypeError (not_subscriptable (po_type o)))
      end
  | v, _ => inl (TypeError (not_subscriptable (type_name v)))
  end.

(** [self.__fits__[problem_type]] *)
Definition fits_getitem (pt : option ProblemKind) : M (option LearnerClass) :=
  fits ← self_fits;
  lift (fits_item fits pt).

(** [Fitter._get_learner_kwargs(learner)]:
    [set(learner.__init__.__code__.co_varnames[1:])].  The [__init__] of
    [None] is a method wrapper without a code object. *)
Definition _get_learner_kwargs (learner : option LearnerClass) : exn + gset string :=
  match learner with
  | Some c => inr (list_to_set (drop 1 (co_varnames (lc_init_code c))))
  | None => inl (AttributeError (no_attribute "method-wrapper" "__code__"))
  end.

(** [{k: kwargs[k] for k in params & set(kwargs.keys())}] *)
Definition filter_kwargs (params : gset string) (kw : gmap string pyval) :
    gmap string pyval :=
  set_to_map (λ k, (k, kw !!! k)) (params ∩ dom kw).

(** [Fitter.__get_kwargs(self, kwargs, problem_type)] *)
Definition __get_kwargs (kw : gmap string pyval) (pt : option ProblemKind) :
    M (gmap string pyval) :=
  learner ← fits_getitem pt;
  params ← lift (_get_learner_kwargs learner);
  mret (filter_kwargs params kw).

(** [Fitter.__handled_problem_types(self)] *)
Definition __handled_problem_types : M (gset ProblemKind) :=
  let types : gset ProblemKind := ∅ in
  fits ← self_fits;
  c ← fits_field "classification" classification po_classification fits;
  let types := if c is Some _ then types ∪ {[CLASSIFICATION]} else types in
  fits ← self_fits;
  r ← fits_field "regression" regression po_regression fits;
  let types := if r is Some _ then types ∪ {[REGRESSION]} else types in
  mret types.

(** [problem_type in types], where [problem_type] may be [None]. *)
Definition py_in (pt : option ProblemKind) (types : gset ProblemKind) : bool :=
  match pt with
  | Some k => bool_decide (k ∈ types)
  | None => false
  end.

Definition kind_repr (pt : option ProblemKind) : string :=
  match pt with
  | None => "None"
  | Some CLASSIFICATION => "0"
  | Some REGRESSION => "1"
  end.

(** [self.__learners[problem_type]] *)
Definition learners_getitem (pt : option ProblemKind) : M (option loc) :=
  m ← gets __learners;
  match pt with
  | Some k =>
      match m !! k with
      | Some v => mret v
      | None => raise (KeyError (kind_repr pt))
      end
  | None => raise (KeyError (kind_repr pt))
  end.

(** [self.__learners[problem_type] = learner] *)
Definition learners_setitem (pt : option ProblemKind) (l : loc) : M unit :=
  match pt with
  | Some k => modify (λ s, set_learners (<[k := Some l]> (__learners s)) s)
  | None => raise (TypeError "unhashable problem type")
  end.

Definition log_ctor (pt : option ProblemKind) (c : LearnerClass)
    (kw : gmap string pyval) (r : option loc) : M unit :=
  modify (λ s, set_ctor_log (ctor_log s ++ [Build_CtorCall pt (lc_name c) kw r]) s).

(** Calling [ctor] on keyword arguments [kw]: run the class's [__init__]; when it returns, the new
    instance is placed at the next free location of the store.  [pt] only
    feeds the ghost log. *)
Definition construct (pt : option ProblemKind) (ctor : option LearnerClass)
    (kw : gmap string pyval) : M loc :=
  match ctor with
  | None => raise (TypeError "'NoneType' object is not callable")
  | Some c =>
      match lc_init c kw with
      | inl e => log_ctor pt c kw None;; raise (Propagated e)
      | inr attrs =>
          l ← gets (λ s, length (heap s));
          modify (λ s, set_heap (heap s ++ [Build_LearnerObj c attrs]) s);;
          log_ctor pt c kw (Some l);;
          mret l
      end
  end.

Definition set_obj_attr (a : string) (v : pyval) (o : LearnerObj) : LearnerObj :=
  {| obj_class := obj_class o; obj_attrs := <[a := v]> (obj_attrs o) |}.

(** [learner.a = v] *)
Definition setattr (l : loc) (a : string) (v : pyval) : M unit :=
  modify (λ s, set_heap (alter (set_obj_attr a v) l (heap s)) s).

Definition no_learner_msg : string :=
  "There is no learner defined that handles that type of data".

(** [Fitter.get_learner(self, problem_type)] *)
Definition get_learner (pt : option ProblemKind) : M (option loc) :=
  types ← __handled_problem_types;
  if negb (py_in pt types) then raise (AttributeError no_learner_msg)
  else
    cached ← learners_getitem pt;
    (if cached is None then
       ctor ← fits_getitem pt;
       kw0 ← gets kwargs;
       kw ← __get_kwargs kw0 pt;
       learner ← construct pt ctor kw;
       udp ← gets use_default_preprocessors;
       setattr learner "use_default_preprocessors" udp;;
       learners_setitem pt learner
     else mret ());;
    learners_getitem pt.

Definition data_kind (data : Dataset) : ProblemKind :=
  if has_discrete_class (domain data) then CLASSIFICATION else REGRESSION.

(** [learner(data)]: the learner's call on its attribute view and the
    dataset; the view stays as it is (see [LearnerClass]). *)
Definition call_learner (learner : option loc) (data : Dataset) : M pyval :=
  match learner with
  | None => raise (TypeError "'NoneType' object is not callable")
  | Some l =>
      h ← gets heap;
      match h !! l with
      | None => raise Stuck
      | Some o =>
          match lc_call (obj_class o) (obj_attrs o) data with
          | inl e => raise (Propagated e)
          | inr model => mret model
          end
      end
  end.

(** [Fitter.__call__(self, data)] *)
Definition Fitter_call (data : Dataset) : M pyval :=
  modify (set_problem_type (Some (data_kind data)));;
  pt ← gets problem_type;
  learner ← get_learner pt;
  call_learner learner data.

(** [getattr(learner, item)]: the item of the learner's attribute view, or
    the attribute error of an object on which the name is not found. *)
Definition getattr (learner : option loc) (item : string) : M pyval :=
  match learner with
  | None => raise (AttributeError (no_attribute "NoneType" item))
  | Some l =>
      h ← gets heap;
      match h !! l with
      | None => raise Stuck
      | Some o =>
          match obj_attrs o !! item with
          | Some v => mret v
          | None => raise (AttributeError (no_attribute (lc_name (obj_class o)) item))
          end
      end
  end.

(** [Fitter.__getattr__(self, item)]; Python calls it only for an [item]
    that ordinary lookup on the fitter does not find. *)
Definition Fitter_getattr (item : string) : M pyval :=
  pt ← gets problem_type;
  learner ← get_learner pt;
  getattr learner item.

(** ** Runs of method calls on one instance *)

Inductive op :=
| Call (data : Dataset)
| GetLearner (pt : option ProblemKind)
| GetAttr (item : string).

Definition step (s : State) (o : op) : State :=
  match o with
  | Call d => (Fitter_call d s).1
  | GetLearner pt => (get_learner pt s).1
  | GetAttr item => (Fitter_getattr item s).1
  end.

Definition run (ops : list op) (s : State) : State := fold_left step ops s.

(** How many learners the log shows as built for problem type [k]; a
    constructor call that raised built none. *)
Definition built_for (k : ProblemKind) (c : CtorCall) : bool :=
  bool_decide (cc_kind c = Some k) && bool_decide (is_Some (cc_result c)).

Definition constructions (k : ProblemKind) (log : list CtorCall) : nat :=
  length (filter (λ c, built_for k c = true) log).

(** The problem types a binding handles. *)
Definition handled (lt : LearnerTypes) : gset ProblemKind :=
  let types : gset ProblemKind :=
    if classification lt is Some _ then ∅ ∪ {[CLASSIFICATION]} else ∅ in
  if regression lt is Some _ then types ∪ {[REGRESSION]} else types.

(** The problem types [__handled_problem_types] finds on the value [v] of
    [__fits__], or the exception reading its attributes ends in. *)
Definition handled_of (v : nsval) : exn + gset ProblemKind :=
  match fits_attr "classification" classification po_classification v with
  | inl e => inl e
  | inr c =>
      match fits_attr "regression" regression po_regression v with
      | inl e => inl e
      | inr r =>
          let types : gset ProblemKind := if c is Some _ then ∅ ∪ {[CLASSIFICATION]} else ∅ in
          inr (if r is Some _ then types ∪ {[REGRESSION]} else types)
      end
  end.

(** Class lookup of [__fits__] on the instance gives the value [v]. *)
Definition fits_val (s : State) (v : nsval) : Prop :=
  class_getattr (cls s) "__fits__" = Some v.

(** The class of the instance binds [__fits__] to the [LearnerTypes] [lt]. *)
Definition fits_is (s : State) (lt : LearnerTypes) : Prop :=
  class_getattr (cls s) "__fits__" = Some (NsLearnerTypes lt).

(** The names [get_learner] takes as accepted by the constructor of [lc]. *)
Definition accepted (lc : LearnerClass) : gset string :=
  list_to_set (drop 1 (co_varnames (lc_init_code lc))).

(** The state [get_learner] leaves after building a learner of class [lc]
    for [k] from attributes [attrs]. *)
Definition after_build (k : ProblemKind) (lc : LearnerClass)
    (attrs : gmap string pyval) (s : State) : State :=
  {| cls := cls s;
     kwargs := kwargs s;
     problem_type := problem_type s;
     __learners := <[k := Some (length (heap s))]> (__learners s);
     use_default_preprocessors := use_default_preprocessors s;
     heap := heap s ++ [set_obj_attr "use_default_preprocessors"
                          (use_default_preprocessors s) (Build_LearnerObj lc attrs)];
     ctor_log := ctor_log s ++
       [Build_CtorCall (Some k) (lc_name lc)
          (filter_kwargs (accepted lc) (kwargs s)) (Some (length (heap s)))] |}.

(** ** Outcomes and invariant *)

(** Every outcome of [get_learner]: the state is untouched (an exception
    before any constructor call, or a cached learner), or a learner was
    built and cached, or the learner's constructor raised. *)
Inductive get_learner_outcome (pt : option ProblemKind) (s : State) :
    State * (exn + option loc) → Prop :=
| glo_error e :
    get_learner_outcome pt s (s, inl e)
| glo_cached v types k l :
    pt = Some k → fits_val s v → handled_of v = inr types → k ∈ types →
    __learners s !! k = Some (Some l) →
    get_learner_outcome pt s (s, inr (Some l))
| glo_built v types k lc attrs :
    pt = Some k → fits_val s v → handled_of v = inr types → k ∈ types →
    fits_item v (Some k) = inr (Some lc) →
    __learners s !! k = Some None →
    lc_init lc (filter_kwargs (accepted lc) (kwargs s)) = inr attrs →
    get_learner_outcome pt s (after_build k lc attrs s, inr (Some (length (heap s))))
| glo_ctor_raised v types k lc e :
    pt = Some k → fits_val s v → handled_of v = inr types → k ∈ types →
    fits_item v (Some k) = inr (Some lc) →
    __learners s !! k = Some None →
    lc_init lc (filter_kwargs (accepted lc) (kwargs s)) = inl e →
    get_learner_outcome pt s
      (set_ctor_log (ctor_log s ++
         [Build_CtorCall (Some k) (lc_name lc) (filter_kwargs (accepted lc) (kwargs s)) None]) s,
       inl (Propagated e)).

(** Both keys of [self.__learners] stay bound; a cached learner is an
    object of the store, cached under a problem type the guard lets through,
    built from the class [__fits__] holds at that index and carrying the
    fitter's [use_default_preprocessors]; and the log shows one construction
    for a populated slot and none for an empty one. *)
Record inv (s : State) : Prop := {
  inv_keys : ∀ k, is_Some (__learners s !! k);
  inv_cached : ∀ k l, __learners s !! k = Some (Some l) →
    ∃ v types lc o, fits_val s v ∧ handled_of v = inr types ∧ k ∈ types ∧
      fits_item v (Some k) = inr (Some lc) ∧ heap s !! l = Some o ∧
      obj_class o = lc ∧
      obj_attrs o !! "use_default_preprocessors" = Some (use_default_preprocessors s);
  inv_count : ∀ k,
    constructions k (ctor_log s) = if __learners s !! k is Some (Some _) then 1 else 0
}.

(** What no method changes. *)
Definition same_config (s s' : State) : Prop :=
  cls s' = cls s ∧ kwargs s' = kwargs s ∧
  use_default_preprocessors s' = use_default_preprocessors s.

Definition is_call (o : op) : bool := if o is Call _ then true else false.

(** The kind of the dataset of the last [__call__] among [ops], or [pt]
    when there is none. *)
Definition last_kind (pt : option ProblemKind) (ops : list op) : option ProblemKind :=
  fold_left (λ pt o, if o is Call d then Some (data_kind d) else pt) ops pt.

(** The exception a method call ends in, if any. *)
Definition op_error (o : op) (s : State) : option exn :=
  match o with
  | Call d => if (Fitter_call d s).2 is inl e then Some e else None
  | GetLearner pt => if (get_learner pt s).2 is inl e then Some e else None
  | GetAttr item => if (Fitter_getattr item s).2 is inl e then Some e else None
  end.


(** How many slots of [self.__learners] hold a learner. *)
Definition slot_filled (s : State) (k : ProblemKind) : nat :=
  if __learners s !! k is Some (Some _) then 1 else 0.

Definition populated (s : State) : nat :=
  slot_filled s CLASSIFICATION + slot_filled s REGRESSION.

(** The store holds exactly the cached learners, each under one slot. *)
Record inv_store (s : State) : Prop := {
  inv_size : length (heap s) = populated s;
  inv_bound : ∀ k l, __learners s !! k = Some (Some l) → l < length (heap s);
  inv_distinct : ∀ k1 k2 l,
    __learners s !! k1 = Some (Some l) → __learners s !! k2 = Some (Some l) → k1 = k2
}.

(** ** Sample learners, fitters and datasets *)

Module Samples.

(** [__init__] of a class whose signature has no catch-all: a keyword
    outside the declared parameters raises; otherwise the keyword
    arguments are stored as attributes. *)
Definition checked_init (code : Code) (kw : gmap string pyval) :
    string + gmap string pyval :=
  if decide (dom kw ⊆ list_to_set (drop 1 (declared_params code)))
  then inr kw
  else inl "TypeError: __init__() got an unexpected keyword argument".

(** [def __init__(self, a, c): ...] *)
Definition tree_code : Code := {| co_nparams := 3; co_varnames := ["self"; "a"; "c"] |}.
Definition TreeClassifier : LearnerClass :=
  {| lc_name := "TreeClassifier";
     lc_init_code := tree_code;
     lc_init := checked_init tree_code;
     lc_call := λ attrs data, inr (PObj "TreeModel") |}.

(** [def __init__(self, b, preprocessors=None): ...] *)
Definition linear_code : Code :=
  {| co_nparams := 3; co_varnames := ["self"; "b"; "preprocessors"] |}.
Definition LinearRegression : LearnerClass :=
  {| lc_name := "LinearRegression";
     lc_init_code := linear_code;
     lc_init := checked_init linear_code;
     lc_call := λ attrs data, inr (PObj "LinearModel") |}.

(** [def __init__(self, a): tmp = 2 * a; ...]: [tmp] is a local. *)
Definition scratch_code : Code := {| co_nparams := 2; co_varnames := ["self"; "a"; "tmp"] |}.
Definition ScratchLearner : LearnerClass :=
  {| lc_name := "ScratchLearner";
     lc_init_code := scratch_code;
     lc_init := checked_init scratch_code;
     lc_call := λ attrs data, inr (PObj "ScratchModel") |}.

Definition both : LearnerTypes :=
  {| classification := Some TreeClassifier; regression := Some LinearRegression |}.
Definition only_classification : LearnerTypes :=
  {| classification := Some TreeClassifier; regression := None |}.
Definition scratch : LearnerTypes :=
  {| classification := Some ScratchLearner; regression := None |}.

Definition named_body (name : string) (lt : LearnerTypes) : gmap string nsval :=
  <["name" := NsStr name]> (<["__fits__" := NsLearnerTypes lt]> ∅).

Definition TreeOrLinearFitter : PyClass := mkClass "TreeOrLinearFitter" [Fitter] (named_body "tree or linear" both).
Definition TreeFitter : PyClass := mkClass "TreeFitter" [Fitter] (named_body "tree" only_classification).
Definition ScratchFitter : PyClass := mkClass "ScratchFitter" [Fitter] (named_body "scratch" scratch).
(** [class Unbound(Fitter): pass] *)
Definition Unbound : PyClass := mkClass "Unbound" [Fitter] ∅.

Definition abc : gmap string pyval :=
  <["a" := PInt 1]> (<["b" := PInt 2]> (<["c" := PInt 3]> ∅)).

Definition discrete_data : Dataset :=
  {| domain := {| has_discrete_class := true |}; rows := [[1; 0]; [0; 1]]%Z |}.
Definition continuous_data : Dataset :=
  {| domain := {| has_discrete_class := false |}; rows := [[1; 25]; [2; 37]]%Z |}.

(** [def __init__(self, a, c): b = a + c; ...]: [b] is a local. *)
Definition summing_code : Code :=
  {| co_nparams := 3; co_varnames := ["self"; "a"; "c"; "b"] |}.
Definition SummingLearner : LearnerClass :=
  {| lc_name := "SummingLearner";
     lc_init_code := summing_code;
     lc_init := checked_init summing_code;
     lc_call := λ attrs data, inr (PObj "SummingModel") |}.
Definition summing : LearnerTypes :=
  {| classification := Some SummingLearner; regression := None |}.
Definition SummingFitter : PyClass := mkClass "SummingFitter" [Fitter] (named_body "summing" summing).

(** [def __init__(self, use_default_preprocessors): ...], storing its
    argument. *)
Definition flag_code : Code :=
  {| co_nparams := 2; co_varnames := ["self"; "use_default_preprocessors"] |}.
Definition FlagLearner : LearnerClass :=
  {| lc_name := "FlagLearner";
     lc_init_code := flag_code;
     lc_init := λ kw, inr kw;
     lc_call := λ attrs data, inr (PObj "FlagModel") |}.
Definition flag : LearnerTypes :=
  {| classification := Some FlagLearner; regression := None |}.
Definition FlagFitter : PyClass := mkClass "FlagFitter" [Fitter] (named_body "flag" flag).

(** Another namedtuple with the two fields, holding the same classes as
    [both]: not a [LearnerTypes], but with its attributes and items. *)
Definition lookalike : PyObject :=
  {| po_type := "Pair"; po_truth := true;
     po_classification := Some (Some TreeClassifier);
     po_regression := Some (Some LinearRegression);
     po_items := Some [Some TreeClassifier; Some LinearRegression] |}.
(** [class Lookalike(Fitter): __fits__ = Pair(TreeClassifier, LinearRegression)] *)
Definition Lookalike : PyClass :=
  mkClass "Lookalike" [Fitter] (<["__fits__" := NsOther lookalike]> ∅).

(** [LearnerTypes(None, None)] *)
Definition neither : LearnerTypes := {| classification := None; regression := None |}.
Definition EmptyFitter : PyClass := mkClass "EmptyFitter" [Fitter] (named_body "empty" neither).

(** [def __init__(self, a): raise ValueError(a)] *)
Definition PickyLearner : LearnerClass :=
  {| lc_name := "PickyLearner";
     lc_init_code := {| co_nparams := 2; co_varnames := ["self"; "a"] |};
     lc_init := λ kw, inl "ValueError";
     lc_call := λ attrs data, inr (PObj "PickyModel") |}.
Definition picky : LearnerTypes :=
  {| classification := Some PickyLearner; regression := Some LinearRegression |}.
Definition PickyFitter : PyClass := mkClass "PickyFitter" [Fitter] (named_body "picky" picky).

End Samples.

(** * Lemmas *)

(** ** Basic facts *)

Ltac unfold_m :=
  unfold mbind, M_bind, mret, M_ret, raise, gets, modify, lift in *.

(** The metaclass accepts the declaration of [Fitter] itself and of the
    sample fitters. *)
Lemma Fitter_declared : FitterMeta_new "Fitter" [Learner] Fitter_body = inr Fitter.
Proof. by vm_compute. Qed.

Lemma sample_fitters_declared :
  FitterMeta_new "TreeOrLinearFitter" [Fitter] (Samples.named_body "tree or linear" Samples.both)
  = inr Samples.TreeOrLinearFitter ∧
  FitterMeta_new "TreeFitter" [Fitter] (Samples.named_body "tree" Samples.only_classification)
  = inr Samples.TreeFitter ∧
  FitterMeta_new "ScratchFitter" [Fitter] (Samples.named_body "scratch" Samples.scratch)
  = inr Samples.ScratchFitter.
Proof. by split_and!. Qed.

(** A subclass the metaclass does not check works with any [__fits__] that
    has the two attributes and the two items, here another namedtuple. *)
Lemma lookalike_binding_fits :
  let s := Fitter_init Samples.Lookalike (PBool false) PNone Samples.abc in
  FitterMeta_new "Lookalike" [Fitter] (<["__fits__" := NsOther Samples.lookalike]> ∅)
  = inr Samples.Lookalike ∧
  (Fitter_call Samples.discrete_data s).2 = inr (PObj "TreeModel") ∧
  (Fitter_call Samples.continuous_data s).2 = inr (PObj "LinearModel").
Proof. split; [reflexivity|]. by vm_compute. Qed.

Lemma filter_kwargs_lookup params kw x :
  filter_kwargs params kw !! x = if decide (x ∈ params) then kw !! x else None.
Proof.
  apply option_eq; intros v. unfold filter_kwargs.
  rewrite lookup_set_to_map by (intros ?? _ _ ?; by simplify_eq/=).
  split.
  - intros (y & [Hp Hd]%elem_of_intersection & Heq). simplify_eq.
    rewrite decide_True by done.
    apply elem_of_dom in Hd as [w Hw]. by rewrite (lookup_total_correct _ _ _ Hw), Hw.
  - case_decide as Hp; [|done]. intros Hx. exists x. split.
    + apply elem_of_intersection. split; [done|]. apply elem_of_dom; eauto.
    + by rewrite (lookup_total_correct _ _ _ Hx).
Qed.

Lemma filter_kwargs_dom params kw : dom (filter_kwargs params kw) = params ∩ dom kw.
Proof.
  apply set_eq; intros x.
  rewrite elem_of_dom, filter_kwargs_lookup, elem_of_intersection, elem_of_dom.
  case_decide as Hp.
  - split; [by intros ?; split | by intros [_ ?]].
  - split; [by intros [? ?] | by intros [? _]].
Qed.

Lemma slot_handled lt k : py_in (Some k) (handled lt) = bool_decide (is_Some (slot lt k)).
Proof.
  unfold py_in, handled, slot. apply bool_decide_ext.
  destruct lt as [[c|] [r|]], k; simpl; split; intros H;
    try (by eauto); try set_solver; by destruct H.
Qed.

Lemma handled_of_LearnerTypes lt : handled_of (NsLearnerTypes lt) = inr (handled lt).
Proof. done. Qed.

Lemma handled_LearnerTypes_elem lt k : k ∈ handled lt ↔ is_Some (slot lt k).
Proof.
  pose proof (slot_handled lt k) as H. unfold py_in in H.
  rewrite <-(bool_decide_spec (k ∈ handled lt)), H. apply bool_decide_spec.
Qed.

(** Reading the attributes of [__fits__] can only end in an attribute
    error. *)
Lemma handled_of_error v e : handled_of v = inl e → ∃ msg, e = AttributeError msg.
Proof.
  unfold handled_of, fits_attr.
  destruct v as [| | | |lt|o]; simpl; try (intros [= <-]; eauto).
  destruct (po_classification o); [|intros [= <-]; eauto].
  destruct (po_regression o); [done|intros [= <-]; eauto].
Qed.

Lemma alter_new_last {A} (f : A → A) (h : list A) (x : A) :
  alter f (length h) (h ++ [x])%list = (h ++ [f x])%list.
Proof. induction h as [|y h IH]; simpl; [done|]. by f_equal. Qed.

(** *** The monad *)

Lemma bind_ok {A B} (m : M A) (f : A → M B) s s' v :
  m s = (s', inr v) → (m ≫= f) s = f v s'.
Proof. intros H. unfold_m. by rewrite H. Qed.

Lemma bind_err {A B} (m : M A) (f : A → M B) s s' e :
  m s = (s', inl e) → (m ≫= f) s = (s', inl e).
Proof. intros H. unfold_m. by rewrite H. Qed.

Lemma bind_gets {A B} (g : State → A) (f : A → M B) s : (gets g ≫= f) s = f (g s) s.
Proof. done. Qed.

Lemma bind_modify {B} (g : State → State) (f : unit → M B) s :
  (modify g ≫= f) s = f () (g s).
Proof. done. Qed.

(** *** The helpers of [get_learner] *)

Lemma self_fits_eq s v : fits_val s v → self_fits s = (s, inr v).
Proof. intros Hf. unfold self_fits. unfold_m. by rewrite Hf. Qed.

Lemma handled_problem_types_val s v :
  fits_val s v → __handled_problem_types s = (s, handled_of v).
Proof.
  intros Hf. unfold __handled_problem_types, handled_of, fits_field.
  rewrite (bind_ok _ _ _ _ _ (self_fits_eq s v Hf)).
  destruct (fits_attr "classification" classification po_classification v) as [e|c] eqn:Hc.
  { by apply bind_err. }
  erewrite bind_ok by done.
  rewrite (bind_ok _ _ _ _ _ (self_fits_eq s v Hf)).
  destruct (fits_attr "regression" regression po_regression v) as [e|r] eqn:Hr.
  { by apply bind_err. }
  by erewrite bind_ok by done.
Qed.

Lemma handled_problem_types_eq s lt :
  fits_is s lt → __handled_problem_types s = (s, inr (handled lt)).
Proof. intros Hf. by rewrite (handled_problem_types_val s _ Hf). Qed.

Lemma learners_getitem_eq s k v :
  __learners s !! k = Some v → learners_getitem (Some k) s = (s, inr v).
Proof. intros H. unfold learners_getitem. unfold_m. by rewrite H. Qed.

Lemma fits_getitem_val s v pt : fits_val s v → fits_getitem pt s = (s, fits_item v pt).
Proof.
  intros Hf. unfold fits_getitem.
  by rewrite (bind_ok _ _ _ _ _ (self_fits_eq s v Hf)).
Qed.

Lemma fits_getitem_eq s lt k :
  fits_is s lt → fits_getitem (Some k) s = (s, inr (slot lt k)).
Proof. intros Hf. by rewrite (fits_getitem_val s _ _ Hf). Qed.

Lemma get_kwargs_val s v k lc kw :
  fits_val s v → fits_item v (Some k) = inr (Some lc) →
  __get_kwargs kw (Some k) s = (s, inr (filter_kwargs (accepted lc) kw)).
Proof.
  intros Hf Hs. unfold __get_kwargs.
  assert (fits_getitem (Some k) s = (s, inr (Some lc))) as Hg
    by by rewrite (fits_getitem_val s v _ Hf), Hs.
  by rewrite (bind_ok _ _ _ _ _ Hg).
Qed.

Lemma construct_ok pt lc kw attrs s :
  lc_init lc kw = inr attrs →
  construct pt (Some lc) kw s
  = (set_ctor_log (ctor_log s ++ [Build_CtorCall pt (lc_name lc) kw (Some (length (heap s)))])
       (set_heap (heap s ++ [Build_LearnerObj lc attrs]) s),
     inr (length (heap s))).
Proof. intros H. unfold construct. by rewrite H. Qed.

Lemma construct_raises pt lc kw e s :
  lc_init lc kw = inl e →
  construct pt (Some lc) kw s
  = (set_ctor_log (ctor_log s ++ [Build_CtorCall pt (lc_name lc) kw None]) s,
     inl (Propagated e)).
Proof. intros H. unfold construct. by rewrite H. Qed.

(** *** [get_learner], case by case, for any value of [__fits__] *)

Lemma get_learner_guard_raises s v pt e :
  fits_val s v → handled_of v = inl e → get_learner pt s = (s, inl e).
Proof.
  intros Hf He. unfold get_learner. apply bind_err.
  by rewrite (handled_problem_types_val s v Hf), He.
Qed.

Lemma get_learner_not_handled s v pt types :
  fits_val s v → handled_of v = inr types → py_in pt types = false →
  get_learner pt s = (s, inl (AttributeError no_learner_msg)).
Proof.
  intros Hf Hh Hp. unfold get_learner.
  assert (__handled_problem_types s = (s, inr types)) as Hg
    by by rewrite (handled_problem_types_val s v Hf), Hh.
  rewrite (bind_ok _ _ _ _ _ Hg). by rewrite Hp.
Qed.

(** Asked for the problem type [None], [get_learner] raises an attribute
    error whatever [__fits__] is: the one of reading its attributes, or its
    own when the attributes are there. *)
Lemma get_learner_None_val s v :
  fits_val s v →
  ∃ msg, get_learner None s = (s, inl (AttributeError msg)) ∧
    (∀ lt, v = NsLearnerTypes lt → msg = no_learner_msg).
Proof.
  intros Hf. destruct (handled_of v) as [e|types] eqn:Hh.
  - destruct (handled_of_error v e Hh) as [msg ->]. exists msg. split.
    + by apply (get_learner_guard_raises s v).
    + intros lt ->. discriminate.
  - exists no_learner_msg. split; [|done].
    by apply (get_learner_not_handled s v None types).
Qed.

(** The first lines of [get_learner] when the guard lets the problem type
    through. *)
Lemma get_learner_handled_val s v types k cached :
  fits_val s v → handled_of v = inr types → k ∈ types →
  __learners s !! k = Some cached →
  get_learner (Some k) s
  = (((if cached is None then
         ctor ← fits_getitem (Some k);
         kw0 ← gets kwargs;
         kw ← __get_kwargs kw0 (Some k);
         learner ← construct (Some k) ctor kw;
         udp ← gets use_default_preprocessors;
         setattr learner "use_default_preprocessors" udp;;
         learners_setitem (Some k) learner
       else mret ());;
      learners_getitem (Some k)) s).
Proof.
  intros Hf Hh Hk Hl. unfold get_learner.
  assert (__handled_problem_types s = (s, inr types)) as Hg
    by by rewrite (handled_problem_types_val s v Hf), Hh.
  rewrite (bind_ok _ _ _ _ _ Hg). unfold py_in.
  rewrite bool_decide_true by done. cbn [negb].
  by rewrite (bind_ok _ _ _ _ _ (learners_getitem_eq s k cached Hl)).
Qed.

Lemma get_learner_cached_val s v types k l :
  fits_val s v → handled_of v = inr types → k ∈ types →
  __learners s !! k = Some (Some l) →
  get_learner (Some k) s = (s, inr (Some l)).
Proof.
  intros Hf Hh Hk Hl. rewrite (get_learner_handled_val s v types k (Some l)) by done.
  erewrite bind_ok by done. by apply learners_getitem_eq.
Qed.

Lemma get_learner_missing_key_val s v types k :
  fits_val s v → handled_of v = inr types → k ∈ types →
  __learners s !! k = None →
  get_learner (Some k) s = (s, inl (KeyError (kind_repr (Some k)))).
Proof.
  intros Hf Hh Hk Hl. unfold get_learner.
  assert (__handled_problem_types s = (s, inr types)) as Hg
    by by rewrite (handled_problem_types_val s v Hf), Hh.
  rewrite (bind_ok _ _ _ _ _ Hg). unfold py_in.
  rewrite bool_decide_true by done. cbn [negb].
  apply bind_err. unfold learners_getitem. unfold_m. by rewrite Hl.
Qed.

Lemma get_learner_item_raises s v types k e :
  fits_val s v → handled_of v = inr types → k ∈ types →
  __learners s !! k = Some None → fits_item v (Some k) = inl e →
  get_learner (Some k) s = (s, inl e).
Proof.
  intros Hf Hh Hk Hl Hi. rewrite (get_learner_handled_val s v types k None) by done.
  apply bind_err, bind_err. by rewrite (fits_getitem_val s v _ Hf), Hi.
Qed.

Lemma get_learner_item_None s v types k :
  fits_val s v → handled_of v = inr types → k ∈ types →
  __learners s !! k = Some None → fits_item v (Some k) = inr None →
  get_learner (Some k) s
  = (s, inl (AttributeError (no_attribute "method-wrapper" "__code__"))).
Proof.
  intros Hf Hh Hk Hl Hi. rewrite (get_learner_handled_val s v types k None) by done.
  assert (fits_getitem (Some k) s = (s, inr None)) as Hg
    by by rewrite (fits_getitem_val s v _ Hf), Hi.
  apply bind_err. rewrite (bind_ok _ _ _ _ _ Hg), bind_gets.
  apply bind_err. unfold __get_kwargs. by rewrite (bind_ok _ _ _ _ _ Hg).
Qed.

Lemma get_learner_build_val s v types k lc attrs :
  fits_val s v → handled_of v = inr types → k ∈ types →
  fits_item v (Some k) = inr (Some lc) →
  __learners s !! k = Some None →
  lc_init lc (filter_kwargs (accepted lc) (kwargs s)) = inr attrs →
  get_learner (Some k) s = (after_build k lc attrs s, inr (Some (length (heap s)))).
Proof.
  intros Hf Hh Hk Hs Hl Hi. rewrite (get_learner_handled_val s v types k None) by done.
  assert (fits_getitem (Some k) s = (s, inr (Some lc))) as Hg
    by by rewrite (fits_getitem_val s v _ Hf), Hs.
  erewrite bind_ok; [|].
  - apply learners_getitem_eq. simpl. apply lookup_insert_eq.
  - rewrite (bind_ok _ _ _ _ _ Hg), bind_gets.
    rewrite (bind_ok _ _ _ _ _ (get_kwargs_val s v k lc _ Hf Hs)).
    rewrite (bind_ok _ _ _ _ _ (construct_ok _ _ _ _ _ Hi)), bind_gets.
    unfold setattr, learners_setitem. rewrite bind_modify. unfold modify. simpl.
    by rewrite alter_new_last.
Qed.

Lemma get_learner_ctor_raises_val s v types k lc e :
  fits_val s v → handled_of v = inr types → k ∈ types →
  fits_item v (Some k) = inr (Some lc) →
  __learners s !! k = Some None →
  lc_init lc (filter_kwargs (accepted lc) (kwargs s)) = inl e →
  get_learner (Some k) s
  = (set_ctor_log (ctor_log s ++
       [Build_CtorCall (Some k) (lc_name lc) (filter_kwargs (accepted lc) (kwargs s)) None]) s,
     inl (Propagated e)).
Proof.
  intros Hf Hh Hk Hs Hl Hi. rewrite (get_learner_handled_val s v types k None) by done.
  assert (fits_getitem (Some k) s = (s, inr (Some lc))) as Hg
    by by rewrite (fits_getitem_val s v _ Hf), Hs.
  apply bind_err.
  rewrite (bind_ok _ _ _ _ _ Hg), bind_gets.
  rewrite (bind_ok _ _ _ _ _ (get_kwargs_val s v k lc _ Hf Hs)).
  by rewrite (bind_err _ _ _ _ _ (construct_raises _ _ _ _ _ Hi)).
Qed.

(** *** [get_learner], case by case, for a [LearnerTypes] binding *)

Lemma get_learner_None s lt :
  fits_is s lt → get_learner None s = (s, inl (AttributeError no_learner_msg)).
Proof. intros Hf. by apply (get_learner_not_handled s _ None (handled lt) Hf). Qed.

Lemma get_learner_unbound s lt k :
  fits_is s lt → slot lt k = None →
  get_learner (Some k) s = (s, inl (AttributeError no_learner_msg)).
Proof.
  intros Hf Hs. apply (get_learner_not_handled s _ _ (handled lt) Hf); [done|].
  rewrite slot_handled, Hs. apply bool_decide_false. by intros [? ?].
Qed.

Lemma get_learner_cached s lt k lc l :
  fits_is s lt → slot lt k = Some lc → __learners s !! k = Some (Some l) →
  get_learner (Some k) s = (s, inr (Some l)).
Proof.
  intros Hf Hs Hl. apply (get_learner_cached_val s _ (handled lt) k l Hf); [done| |done].
  apply handled_LearnerTypes_elem. by rewrite Hs.
Qed.

Lemma get_learner_missing_key s lt k lc :
  fits_is s lt → slot lt k = Some lc → __learners s !! k = None →
  get_learner (Some k) s = (s, inl (KeyError (kind_repr (Some k)))).
Proof.
  intros Hf Hs Hl. apply (get_learner_missing_key_val s _ (handled lt) k Hf); [done| |done].
  apply handled_LearnerTypes_elem. by rewrite Hs.
Qed.

Lemma get_learner_build s lt k lc attrs :
  fits_is s lt → slot lt k = Some lc → __learners s !! k = Some None →
  lc_init lc (filter_kwargs (accepted lc) (kwargs s)) = inr attrs →
  get_learner (Some k) s = (after_build k lc attrs s, inr (Some (length (heap s)))).
Proof.
  intros Hf Hs Hl Hi.
  apply (get_learner_build_val s _ (handled lt) k lc attrs Hf); try done.
  - apply handled_LearnerTypes_elem. by rewrite Hs.
  - simpl. by rewrite Hs.
Qed.

Lemma get_learner_ctor_raises s lt k lc e :
  fits_is s lt → slot lt k = Some lc → __learners s !! k = Some None →
  lc_init lc (filter_kwargs (accepted lc) (kwargs s)) = inl e →
  get_learner (Some k) s
  = (set_ctor_log (ctor_log s ++
       [Build_CtorCall (Some k) (lc_name lc) (filter_kwargs (accepted lc) (kwargs s)) None]) s,
     inl (Propagated e)).
Proof.
  intros Hf Hs Hl Hi.
  apply (get_learner_ctor_raises_val s _ (handled lt) k lc e Hf); try done.
  - apply handled_LearnerTypes_elem. by rewrite Hs.
  - simpl. by rewrite Hs.
Qed.

Lemma get_learner_no_fits s pt :
  class_getattr (cls s) "__fits__" = None →
  get_learner pt s = (s, inl (AttributeError "__fits__")).
Proof.
  intros Hf. unfold get_learner. apply bind_err.
  unfold __handled_problem_types. apply bind_err.
  unfold self_fits. unfold_m. by rewrite Hf.
Qed.

Lemma get_learner_cases pt s : get_learner_outcome pt s (get_learner pt s).
Proof.
  destruct (class_getattr (cls s) "__fits__") as [v|] eqn:Hf;
    [|rewrite (get_learner_no_fits s pt Hf); apply glo_error].
  change (fits_val s v) in Hf.
  destruct (handled_of v) as [e|types] eqn:Hh;
    [rewrite (get_learner_guard_raises s v pt e Hf Hh); apply glo_error|].
  destruct (py_in pt types) eqn:Hp;
    [|rewrite (get_learner_not_handled s v pt types Hf Hh Hp); apply glo_error].
  destruct pt as [k|]; [|done]. apply bool_decide_eq_true in Hp.
  destruct (__learners s !! k) as [[l|]|] eqn:Hl.
  - rewrite (get_learner_cached_val s v types k l) by done. by eapply glo_cached.
  - destruct (fits_item v (Some k)) as [e|[lc|]] eqn:Hi.
    + rewrite (get_learner_item_raises s v types k e) by done. apply glo_error.
    + destruct (lc_init lc (filter_kwargs (accepted lc) (kwargs s))) as [e|attrs] eqn:Hc.
      * rewrite (get_learner_ctor_raises_val s v types k lc e) by done.
        by eapply glo_ctor_raised.
      * rewrite (get_learner_build_val s v types k lc attrs) by done. by eapply glo_built.
    + rewrite (get_learner_item_None s v types k) by done. apply glo_error.
  - rewrite (get_learner_missing_key_val s v types k) by done. apply glo_error.
Qed.

Lemma constructions_snoc k log c :
  constructions k (log ++ [c]) = constructions k log + (if built_for k c then 1 else 0).
Proof.
  unfold constructions. rewrite filter_app, length_app. f_equal.
  rewrite filter_cons, filter_nil. by destruct (built_for k c).
Qed.

Lemma inv_init c udp p kw : inv (Fitter_init c udp p kw).
Proof.
  split; simpl.
  - intros []; [rewrite lookup_insert_eq | rewrite lookup_insert_ne, lookup_insert_eq by done]; eauto.
  - intros [] l; [rewrite lookup_insert_eq | rewrite lookup_insert_ne, lookup_insert_eq by done];
      intros; discriminate.
  - by intros [].
Qed.

Lemma inv_set_problem_type pt s : inv s → inv (set_problem_type pt s).
Proof. intros [H1 H2 H3]. by split. Qed.

Lemma inv_after_build s v types k lc attrs :
  fits_val s v → handled_of v = inr types → k ∈ types →
  fits_item v (Some k) = inr (Some lc) → __learners s !! k = Some None →
  inv s → inv (after_build k lc attrs s).
Proof.
  intros Hf Hh Hk Hs Hl [H1 H2 H3]. split; simpl.
  - intros k'. destruct (decide (k = k')) as [->|Hne].
    + rewrite lookup_insert_eq. eauto.
    + by rewrite lookup_insert_ne.
  - intros k' l. destruct (decide (k = k')) as [->|Hne].
    + rewrite lookup_insert_eq. intros [= <-]. eexists v, types, lc, _.
      split; [exact Hf|]. split; [exact Hh|]. split; [exact Hk|]. split; [exact Hs|].
      split; [by apply list_lookup_middle|]. split; [done|].
      simpl. apply lookup_insert_eq.
    + rewrite lookup_insert_ne by done. intros Hk'.
      destruct (H2 k' l Hk') as (v' & types' & lc' & o & ? & ? & ? & ? & Ho & ? & ?).
      exists v', types', lc', o. split_and!; try done. by apply lookup_app_l_Some.
  - intros k'. rewrite constructions_snoc, H3. unfold built_for. simpl.
    destruct (decide (k = k')) as [->|Hne].
    + rewrite lookup_insert_eq, Hl, !bool_decide_true by eauto. done.
    + rewrite lookup_insert_ne by done.
      rewrite (bool_decide_false (Some k = Some k')) by congruence. simpl. lia.
Qed.

Lemma inv_ctor_raised s c : cc_result c = None → inv s → inv (set_ctor_log (ctor_log s ++ [c]) s).
Proof.
  intros Hc [H1 H2 H3]. split; simpl; [done..|].
  intros k. rewrite constructions_snoc, H3. unfold built_for. rewrite Hc.
  rewrite (bool_decide_false (is_Some None)) by (by intros [? ?]).
  rewrite andb_false_r. lia.
Qed.

Lemma inv_get_learner pt s : inv s → inv (get_learner pt s).1.
Proof.
  intros Hi. destruct (get_learner_cases pt s); simpl; try done.
  - by eapply inv_after_build.
  - by apply inv_ctor_raised.
Qed.

Lemma get_learner_same_config pt s : same_config s (get_learner pt s).1.
Proof. by destruct (get_learner_cases pt s). Qed.

Lemma get_learner_problem_type pt s : problem_type (get_learner pt s).1 = problem_type s.
Proof. by destruct (get_learner_cases pt s). Qed.

Lemma call_learner_state l d s : (call_learner l d s).1 = s.
Proof.
  unfold call_learner. destruct l as [l|]; [|done]. rewrite bind_gets.
  destruct (heap s !! l) as [o|]; [|done]. by destruct (lc_call _ _ _).
Qed.

Lemma call_learner_eq l o d s :
  heap s !! l = Some o →
  call_learner (Some l) d s
  = (s, match lc_call (obj_class o) (obj_attrs o) d with
        | inl e => inl (Propagated e)
        | inr model => inr model
        end).
Proof.
  intros Ho. unfold call_learner. rewrite bind_gets, Ho.
  by destruct (lc_call (obj_class o) (obj_attrs o) d).
Qed.

Lemma getattr_eq l o item s :
  heap s !! l = Some o →
  getattr (Some l) item s
  = (s, match obj_attrs o !! item with
        | Some v => inr v
        | None => inl (AttributeError (no_attribute (lc_name (obj_class o)) item))
        end).
Proof.
  intros Ho. unfold getattr. rewrite bind_gets, Ho.
  by destruct (obj_attrs o !! item).
Qed.

Lemma getattr_state l item s : (getattr l item s).1 = s.
Proof.
  unfold getattr. destruct l as [l|]; [|done]. rewrite bind_gets.
  destruct (heap s !! l) as [o|]; [|done]. by destruct (obj_attrs o !! item).
Qed.

Lemma Fitter_call_eq d s :
  Fitter_call d s
  = match get_learner (Some (data_kind d)) (set_problem_type (Some (data_kind d)) s) with
    | (s', inr l) => call_learner l d s'
    | (s', inl e) => (s', inl e)
    end.
Proof. done. Qed.

Lemma Fitter_getattr_eq item s :
  Fitter_getattr item s
  = match get_learner (problem_type s) s with
    | (s', inr l) => getattr l item s'
    | (s', inl e) => (s', inl e)
    end.
Proof. done. Qed.

Lemma Fitter_call_state d s :
  (Fitter_call d s).1
  = (get_learner (Some (data_kind d)) (set_problem_type (Some (data_kind d)) s)).1.
Proof.
  rewrite Fitter_call_eq. destruct (get_learner _ _) as [s' [e|l]]; [done|].
  apply call_learner_state.
Qed.

Lemma Fitter_getattr_state item s :
  (Fitter_getattr item s).1 = (get_learner (problem_type s) s).1.
Proof.
  rewrite Fitter_getattr_eq. destruct (get_learner _ _) as [s' [e|l]]; [done|].
  apply getattr_state.
Qed.

Lemma inv_step s o : inv s → inv (step s o).
Proof.
  intros Hi. destruct o as [d|pt|item]; simpl.
  - rewrite Fitter_call_state. by apply inv_get_learner, inv_set_problem_type.
  - by apply inv_get_learner.
  - rewrite Fitter_getattr_state. by apply inv_get_learner.
Qed.

Lemma same_config_step s o : same_config s (step s o).
Proof.
  destruct o as [d|pt|item]; simpl.
  - rewrite Fitter_call_state. apply (get_learner_same_config _ (set_problem_type _ s)).
  - apply get_learner_same_config.
  - rewrite Fitter_getattr_state. apply get_learner_same_config.
Qed.

Lemma inv_run ops s : inv s → inv (run ops s).
Proof.
  revert s. induction ops as [|o ops IH]; intros s Hi; [done|].
  simpl. by apply IH, inv_step.
Qed.

Lemma same_config_run ops s : same_config s (run ops s).
Proof.
  revert s. induction ops as [|o ops IH]; intros s; [done|].
  simpl. destruct (same_config_step s o) as (? & ? & ?).
  destruct (IH (step s o)) as (? & ? & ?). unfold same_config. split_and!; congruence.
Qed.

Lemma get_learner_other_slot pt s k :
  pt ≠ Some k → __learners (get_learner pt s).1 !! k = __learners s !! k.
Proof.
  intros Hne. destruct (get_learner_cases pt s); simpl; try done.
  apply lookup_insert_ne. congruence.
Qed.

(** A learner that [get_learner] returns is the one cached for the problem
    type asked for. *)
Lemma get_learner_result pt s s' l :
  get_learner pt s = (s', inr l) →
  ∃ k l', pt = Some k ∧ l = Some l' ∧ __learners s' !! k = Some (Some l').
Proof.
  destruct (get_learner_cases pt s) as [| v types k l0 | v types k lc attrs |];
    intros [= <- <-].
  - by exists k, l0.
  - exists k, (length (heap s)). split_and!; [done..|]. simpl. apply lookup_insert_eq.
Qed.

Lemma fits_is_inj s lt lt' : fits_is s lt → fits_is s lt' → lt = lt'.
Proof. unfold fits_is. congruence. Qed.

(** On an instance that keeps the invariant, asking for a cached learner
    returns it and changes nothing. *)
Lemma get_learner_cached_inv s k l :
  inv s → __learners s !! k = Some (Some l) →
  get_learner (Some k) s = (s, inr (Some l)).
Proof.
  intros Hi Hl. destruct (inv_cached s Hi k l Hl) as (v & types & _ & _ & Hf & Hh & Hk & _).
  by apply (get_learner_cached_val s v types k l).
Qed.

Lemma inv_cached_LearnerTypes s lt k l :
  inv s → fits_is s lt → __learners s !! k = Some (Some l) →
  ∃ o, heap s !! l = Some o ∧ slot lt k = Some (obj_class o).
Proof.
  intros Hi Hf Hl.
  destruct (inv_cached s Hi k l Hl) as (v & types & lc & o & Hf' & _ & _ & Hs & Ho & Hc & _).
  unfold fits_val, fits_is in *. rewrite Hf in Hf'. injection Hf' as <-.
  simpl in Hs. injection Hs as Hs. exists o. by rewrite Hc, Hs.
Qed.

Lemma other_kind_ne k : k ≠ other_kind k.
Proof. by destruct k. Qed.

Lemma run_init_inv c udp p kw ops : inv (run ops (Fitter_init c udp p kw)).
Proof. apply inv_run, inv_init. Qed.

Lemma run_init_fits c udp p kw ops lt :
  class_getattr c "__fits__" = Some (NsLearnerTypes lt) →
  fits_is (run ops (Fitter_init c udp p kw)) lt.
Proof.
  intros Hf. unfold fits_is.
  destruct (same_config_run ops (Fitter_init c udp p kw)) as (-> & _ & _). done.
Qed.

(** * The claims *)

(** ** C1 *)

(** C1. On any instance, whatever was called on it before, invoking on a
    dataset sets the problem type to CLASSIFICATION when the target is
    discrete and to REGRESSION when it is continuous, and, when the binding
    has a learner class [lc] for that type, leaves exactly an instance of
    [lc] cached under that type (the other slot is not touched) and returns
    what that instance returns on the dataset; the only other outcome is
    that the constructor of [lc] itself raised, which is passed on. *)
Theorem C1_invoke_selects_learner_of_kind c udp p kw ops d lt lc :
  let s := run ops (Fitter_init c udp p kw) in
  let k := if has_discrete_class (domain d) then CLASSIFICATION else REGRESSION in
  class_getattr c "__fits__" = Some (NsLearnerTypes lt) →
  slot lt k = Some lc →
  ∃ s' r, Fitter_call d s = (s', r) ∧
    problem_type s' = Some k ∧
    __learners s' !! other_kind k = __learners s !! other_kind k ∧
    ((∃ l o, __learners s' !! k = Some (Some l) ∧ heap s' !! l = Some o ∧
        obj_class o = lc ∧
        r = match lc_call lc (obj_attrs o) d with
            | inl e => inl (Propagated e)
            | inr model => inr model
            end)
     ∨ (∃ e, lc_init lc (filter_kwargs (accepted lc) (kwargs s)) = inl e ∧
        r = inl (Propagated e) ∧ __learners s' = __learners s ∧
        __learners s !! k = Some None)).
Proof.
  intros s k Hc Hs. fold (data_kind d) in k.
  pose proof (run_init_inv c udp p kw ops) as Hi. fold s in Hi.
  pose proof (run_init_fits c udp p kw ops lt Hc) as Hf. fold s in Hf.
  set (s1 := set_problem_type (Some k) s).
  assert (fits_is s1 lt) as Hf1 by done.
  assert (inv s1) as Hi1 by by apply inv_set_problem_type.
  rewrite Fitter_call_eq. fold k s1.
  destruct (inv_keys s Hi k) as [[l|] Hl].
  - rewrite (get_learner_cached s1 lt k lc l) by done.
    destruct (inv_cached_LearnerTypes s lt k l Hi Hf Hl) as (o & Ho & Hs').
    rewrite Hs in Hs'. injection Hs' as ->.
    eexists s1, _. split; [exact (call_learner_eq l o d s1 Ho)|].
    split; [done|]. split; [done|]. left. by exists l, o.
  - destruct (lc_init lc (filter_kwargs (accepted lc) (kwargs s))) as [e|attrs] eqn:Hinit.
    + rewrite (get_learner_ctor_raises s1 lt k lc e) by done.
      eexists _, _. split; [done|]. split; [done|]. split; [done|]. right. by exists e.
    + rewrite (get_learner_build s1 lt k lc attrs) by done.
      set (o := set_obj_attr "use_default_preprocessors" (use_default_preprocessors s)
                  (Build_LearnerObj lc attrs)).
      assert (heap (after_build k lc attrs s1) !! length (heap s1) = Some o) as Ho
        by by apply list_lookup_middle.
      eexists (after_build k lc attrs s1), _. split; [exact (call_learner_eq _ o d _ Ho)|].
      split; [done|]. split.
      { simpl. apply lookup_insert_ne, other_kind_ne. }
      left. exists (length (heap s)), o. split_and!; try done.
      simpl. apply lookup_insert_eq.
Qed.

(** Witness for C1: a fresh [TreeOrLinearFitter] invoked on discrete data. *)
Lemma C1_witness :
  ∃ s' r, Fitter_call Samples.discrete_data
            (run [] (Fitter_init Samples.TreeOrLinearFitter (PBool false) PNone Samples.abc))
          = (s', r) ∧
    problem_type s' = Some CLASSIFICATION ∧
    __learners s' !! REGRESSION = Some None ∧
    ((∃ l o, __learners s' !! CLASSIFICATION = Some (Some l) ∧ heap s' !! l = Some o ∧
        obj_class o = Samples.TreeClassifier ∧ r = inr (PObj "TreeModel"))
     ∨ (∃ e, lc_init Samples.TreeClassifier
               (filter_kwargs (accepted Samples.TreeClassifier)
                  (<["preprocessors" := PNone]> Samples.abc)) = inl e ∧
        r = inl (Propagated e) ∧
        __learners s' = <[CLASSIFICATION := None]> (<[REGRESSION := None]> ∅) ∧
        (<[CLASSIFICATION := None]> (<[REGRESSION := None]> ∅) : gmap ProblemKind (option loc))
          !! CLASSIFICATION = Some None)).
Proof.
  apply (C1_invoke_selects_learner_of_kind Samples.TreeOrLinearFitter (PBool false) PNone
           Samples.abc [] Samples.discrete_data Samples.both Samples.TreeClassifier);
    reflexivity.
Defined.

(** ** C2 *)

(** C2, the code at the failing input.  The docstring of [FitterMeta]
    promises that each subclass of [Fitter] overrides [__fits__] with a
    valid value, but the check runs only for a body binding a truthy
    [name]: [class Unbound(Fitter): pass] binds no [__fits__] of its own and
    inherits [None] from [Fitter], and the metaclass returns the class
    instead of raising. *)
Theorem C2_unnamed_subclass_is_accepted :
  isinstance_LearnerTypes ((∅ : gmap string nsval) !! "__fits__") = false ∧
  FitterMeta_new "Unbound" [Fitter] ∅ = inr Samples.Unbound ∧
  class_getattr Samples.Unbound "__fits__" = Some NsNone.
Proof. by vm_compute. Qed.

(** What the metaclass does check: the declaration fails with the
    assertion error exactly when the class body binds a truthy [name] and
    does not itself bind [__fits__] to a [LearnerTypes] value. *)
Lemma FitterMeta_new_rejects_iff name bases (body : gmap string nsval) :
  (truthy (default (NsBool false) (body !! "name")) = false →
   FitterMeta_new name bases body = inr (mkClass name bases body)) ∧
  (FitterMeta_new name bases body = inl (AssertionError invalid_fits_msg) ↔
   truthy (default (NsBool false) (body !! "name")) = true ∧
   isinstance_LearnerTypes (body !! "__fits__") = false).
Proof.
  unfold FitterMeta_new.
  destruct (truthy (default (NsBool false) (body !! "name")));
    destruct (isinstance_LearnerTypes (body !! "__fits__")); simpl;
    split; try done; split; try done; by intros [? ?].
Qed.

(** A falsy [name] (an empty string, [0], an empty tuple) leaves the class
    unchecked as well. *)
Lemma falsy_name_is_not_checked :
  FitterMeta_new "Anonymous" [Fitter]
    (<["name" := NsOther (plain_object "tuple" false)]> (<["__fits__" := NsInt 7]> ∅))
  = inr (mkClass "Anonymous" [Fitter]
           (<["name" := NsOther (plain_object "tuple" false)]> (<["__fits__" := NsInt 7]> ∅))).
Proof. by vm_compute. Qed.

(** ** C3 *)

(** The keyword arguments of the constructor call: when [get_learner] has
    to build the learner for a bound problem type, the constructor is called
    once, with exactly the entries of the stored configuration whose key is
    among the names [_get_learner_kwargs] returns. *)
Lemma get_learner_passes_filtered_kwargs s lt k lc :
  fits_is s lt → slot lt k = Some lc → __learners s !! k = Some None →
  let passed := filter_kwargs (accepted lc) (kwargs s) in
  dom passed = accepted lc ∩ dom (kwargs s) ∧
  (∀ x, passed !! x = if decide (x ∈ accepted lc) then kwargs s !! x else None) ∧
  (∃ r, ctor_log (get_learner (Some k) s).1
        = (ctor_log s ++ [Build_CtorCall (Some k) (lc_name lc) passed r])%list) ∧
  (get_learner (Some k) s).2
  = match lc_init lc passed with
    | inl e => inl (Propagated e)
    | inr _ => inr (Some (length (heap s)))
    end.
Proof.
  intros Hf Hs Hl passed. split; [apply filter_kwargs_dom|].
  split; [apply filter_kwargs_lookup|].
  destruct (lc_init lc passed) as [e|attrs] eqn:Hi.
  - rewrite (get_learner_ctor_raises s lt k lc e) by done. simpl. eauto.
  - rewrite (get_learner_build s lt k lc attrs) by done. simpl. eauto.
Qed.

(** With no local variable in the constructor, the configuration
    [{a: 1, b: 2, c: 3}] reaches [__init__(self, a, c)] as [{a: 1, c: 3}]. *)
Lemma filter_scenario_without_locals :
  let s := Fitter_init Samples.TreeFitter (PBool false) PNone Samples.abc in
  ctor_log (get_learner (Some CLASSIFICATION) s).1
  = [Build_CtorCall (Some CLASSIFICATION) "TreeClassifier"
       (<["a" := PInt 1]> (<["c" := PInt 3]> ∅)) (Some 0)] ∧
  (get_learner (Some CLASSIFICATION) s).2 = inr (Some 0).
Proof. by vm_compute. Qed.

(** C3, the code at the failing input.  [_get_learner_kwargs] is meant to
    return the constructor's parameters but [self] (its comment says so);
    [co_varnames[1:]] also holds the locals of the body.  With the
    configuration [{a: 1, b: 2, c: 3}] and a constructor
    [__init__(self, a, c)] whose body has a local [b], the declared
    parameters after [self] are [a] and [c], yet the constructor is called
    with [{a: 1, b: 2, c: 3}]: [b] is not dropped, and the call raises. *)
Theorem C3_local_variable_key_is_not_dropped :
  let s := Fitter_init Samples.SummingFitter (PBool false) PNone Samples.abc in
  drop 1 (declared_params (lc_init_code Samples.SummingLearner)) = ["a"; "c"] ∧
  cc_kwargs <$> last (ctor_log (get_learner (Some CLASSIFICATION) s).1)
  = Some (<["a" := PInt 1]> (<["b" := PInt 2]> (<["c" := PInt 3]> ∅))) ∧
  (get_learner (Some CLASSIFICATION) s).2
  = inl (Propagated "TypeError: __init__() got an unexpected keyword argument").
Proof. by vm_compute. Qed.

(** ** C4 *)

(** C4. For a subtype with a binding, [get_learner] raises its "no learner
    defined" error for a problem type exactly when the binding's slot for
    that type is null; and when it is, an invocation on a dataset of that
    type fails with that error without calling any constructor and without
    touching the store or the cache, so every slot that was empty stays
    empty. *)
Theorem C4_unsupported_kind s lt k :
  fits_is s lt →
  ((get_learner (Some k) s).2 = inl (AttributeError no_learner_msg) ↔ slot lt k = None) ∧
  (slot lt k = None →
   ∀ d, data_kind d = k →
     ∃ s', Fitter_call d s = (s', inl (AttributeError no_learner_msg)) ∧
       heap s' = heap s ∧ ctor_log s' = ctor_log s ∧ __learners s' = __learners s ∧
       ((∀ k', __learners s !! k' = Some None) → ∀ k', __learners s' !! k' = Some None)).
Proof.
  intros Hf. split.
  - split.
    + destruct (slot lt k) as [lc|] eqn:Hs; [|done].
      destruct (__learners s !! k) as [[l|]|] eqn:Hl.
      * by rewrite (get_learner_cached s lt k lc l).
      * destruct (lc_init lc (filter_kwargs (accepted lc) (kwargs s))) as [e|attrs] eqn:Hi.
        -- by rewrite (get_learner_ctor_raises s lt k lc e).
        -- by rewrite (get_learner_build s lt k lc attrs).
      * by rewrite (get_learner_missing_key s lt k lc).
    + intros Hs. by rewrite (get_learner_unbound s lt k Hf Hs).
  - intros Hs d <-. exists (set_problem_type (Some (data_kind d)) s).
    rewrite Fitter_call_eq.
    rewrite (get_learner_unbound (set_problem_type (Some (data_kind d)) s) lt (data_kind d))
      by done.
    done.
Qed.

(** The scenario of C4: a fitter binding only a classification learner,
    invoked on continuous data. *)
Lemma C4_witness :
  let s := Fitter_init Samples.TreeFitter (PBool false) PNone Samples.abc in
  ∃ s', Fitter_call Samples.continuous_data s = (s', inl (AttributeError no_learner_msg)) ∧
    heap s' = [] ∧ ctor_log s' = [] ∧ (∀ k', __learners s' !! k' = Some None).
Proof.
  intros s.
  destruct (C4_unsupported_kind s Samples.only_classification REGRESSION) as [_ H];
    [reflexivity|].
  destruct (H eq_refl Samples.continuous_data eq_refl) as (s' & Hc & Hh & Hg & Hl & Hk).
  exists s'. split; [exact Hc|]. split; [exact Hh|]. split; [exact Hg|].
  apply Hk. intros []; reflexivity.
Defined.

(** ** C5 *)

Lemma set_problem_type_id pt s : problem_type s = pt → set_problem_type pt s = s.
Proof. intros <-. by destruct s. Qed.

Lemma Fitter_call_problem_type d s : problem_type (Fitter_call d s).1 = Some (data_kind d).
Proof. rewrite Fitter_call_state. by rewrite get_learner_problem_type. Qed.

Lemma Fitter_call_cached d s l o :
  inv s →
  problem_type s = Some (data_kind d) →
  __learners s !! data_kind d = Some (Some l) → heap s !! l = Some o →
  Fitter_call d s
  = (s, match lc_call (obj_class o) (obj_attrs o) d with
        | inl e => inl (Propagated e)
        | inr model => inr model
        end).
Proof.
  intros Hi Hp Hl Ho. rewrite Fitter_call_eq, (set_problem_type_id _ s Hp).
  rewrite (get_learner_cached_inv s _ l Hi Hl). by apply call_learner_eq.
Qed.

(** C5. After any calls on a fresh instance, take two successive
    invocations on datasets of the same target kind.  If the first one
    returned a model, a learner is cached for that kind; and whenever a
    learner [l] is cached for it after the first invocation, the second one
    changes nothing (no constructor call, same store, same cache) and
    returns what that same [l] returns on the second dataset.  Over the
    whole run the log shows at most one learner built per problem type. *)
Theorem C5_same_kind_reuses_cached_learner c udp p kw ops d1 d2 :
  data_kind d1 = data_kind d2 →
  let s := run ops (Fitter_init c udp p kw) in
  let s1 := (Fitter_call d1 s).1 in
  let s2 := (Fitter_call d2 s1).1 in
  (∀ model, (Fitter_call d1 s).2 = inr model →
     ∃ l, __learners s1 !! data_kind d1 = Some (Some l)) ∧
  (∀ l, __learners s1 !! data_kind d1 = Some (Some l) →
     s2 = s1 ∧ __learners s2 !! data_kind d2 = Some (Some l) ∧
     (Fitter_call d2 s1).2 = (call_learner (Some l) d2 s1).2) ∧
  (∀ k, (constructions k (ctor_log s2) ≤ 1)%nat).
Proof.
  intros Hk s s1 s2.
  assert (inv s1) as Hi1 by apply (inv_step s (Call d1)), run_init_inv.
  assert (inv s2) as Hi2 by by apply (inv_step s1 (Call d2)).
  split; [|split].
  - intros model. subst s1. rewrite Fitter_call_eq.
    destruct (get_learner _ _) as [s' [e|ol]] eqn:Hg; [done|].
    destruct (get_learner_result _ _ _ _ Hg) as (k & l & [= <-] & -> & Hl).
    rewrite call_learner_state. eauto.
  - intros l Hl.
    destruct (inv_cached s1 Hi1 _ l Hl) as (_ & _ & _ & o & _ & _ & _ & _ & Ho & _).
    assert (Fitter_call d2 s1 = (s1, (call_learner (Some l) d2 s1).2)) as Hc.
    { rewrite (call_learner_eq l o d2 s1 Ho).
      apply (Fitter_call_cached d2 s1 l o); rewrite <-?Hk; try done.
      apply Fitter_call_problem_type. }
    subst s2. rewrite Hc. simpl. by rewrite <-Hk.
  - intros k. rewrite (inv_count s2 Hi2 k). destruct (__learners s2 !! k) as [[?|]|]; lia.
Qed.

(** Witness for C5: two invocations of a fresh [TreeOrLinearFitter] on
    discrete data. *)
Lemma C5_witness :
  let s := Fitter_init Samples.TreeOrLinearFitter (PBool false) PNone Samples.abc in
  let s1 := (Fitter_call Samples.discrete_data s).1 in
  let s2 := (Fitter_call Samples.discrete_data s1).1 in
  __learners s1 !! CLASSIFICATION = Some (Some 0) ∧
  s2 = s1 ∧ __learners s2 !! CLASSIFICATION = Some (Some 0) ∧
  constructions CLASSIFICATION (ctor_log s2) = 1.
Proof.
  intros s s1 s2.
  destruct (C5_same_kind_reuses_cached_learner Samples.TreeOrLinearFitter (PBool false) PNone
              Samples.abc [] Samples.discrete_data Samples.discrete_data eq_refl)
    as (_ & H & _).
  destruct (H 0 eq_refl) as (H1 & H2 & _).
  split; [reflexivity|]. split; [exact H1|]. split; [exact H2|]. by vm_compute.
Defined.

(** ** C6 *)

Lemma run_no_call_problem_type ops s :
  forallb (λ o, negb (is_call o)) ops = true → problem_type (run ops s) = problem_type s.
Proof.
  revert s. induction ops as [|o ops IH]; intros s; [done|]. simpl.
  intros [Ho Hops]%andb_true_iff. rewrite (IH _ Hops).
  destruct o as [d|pt|item]; [done| |]; simpl.
  - apply get_learner_problem_type.
  - rewrite Fitter_getattr_state. apply get_learner_problem_type.
Qed.

(** C6. After an invocation that returned a model, [__getattr__] of any
    item changes nothing and gives what [getattr] gives on the learner cached
    for the problem type now recorded: the value of the learner's attribute
    (or the learner's own attribute error when it has none).  As long as
    nothing was invoked, the recorded problem type is [None] and the same
    read raises an [AttributeError]: the "no learner defined" error of
    [get_learner] whenever the class has a binding. *)
Theorem C6_attribute_proxy c udp p kw ops d item :
  let s := run ops (Fitter_init c udp p kw) in
  let s1 := (Fitter_call d s).1 in
  (∀ model, (Fitter_call d s).2 = inr model →
     ∃ l o, problem_type s1 = Some (data_kind d) ∧
       __learners s1 !! data_kind d = Some (Some l) ∧ heap s1 !! l = Some o ∧
       Fitter_getattr item s1
       = (s1, match obj_attrs o !! item with
              | Some v => inr v
              | None => inl (AttributeError (no_attribute (lc_name (obj_class o)) item))
              end)) ∧
  (forallb (λ o, negb (is_call o)) ops = true →
   ∀ v, class_getattr c "__fits__" = Some v →
     problem_type s = None ∧
     ∃ msg, Fitter_getattr item s = (s, inl (AttributeError msg)) ∧
       (∀ lt, v = NsLearnerTypes lt → msg = no_learner_msg)).
Proof.
  intros s s1. split.
  - intros model. subst s1. rewrite Fitter_call_eq.
    destruct (get_learner _ _) as [s' [e|ol]] eqn:Hg; [done|].
    destruct (get_learner_result _ _ _ _ Hg) as (k & l & [= <-] & -> & Hl).
    intros _. rewrite (call_learner_state (Some l) d s').
    assert (inv s') as Hi.
    { replace s' with (get_learner (Some (data_kind d))
                         (set_problem_type (Some (data_kind d)) s)).1 by by rewrite Hg.
      apply inv_get_learner, inv_set_problem_type, run_init_inv. }
    assert (problem_type s' = Some (data_kind d)) as Hp.
    { replace s' with (get_learner (Some (data_kind d))
                         (set_problem_type (Some (data_kind d)) s)).1 by by rewrite Hg.
      by rewrite get_learner_problem_type. }
    destruct (inv_cached s' Hi _ l Hl) as (_ & _ & _ & o & _ & _ & _ & _ & Ho & _).
    exists l, o. split_and!; try done.
    rewrite Fitter_getattr_eq, Hp, (get_learner_cached_inv s' _ l Hi Hl).
    by apply getattr_eq.
  - intros Hops v Hv.
    assert (problem_type s = None) as Hp by by apply run_no_call_problem_type.
    split; [done|].
    assert (class_getattr (cls s) "__fits__" = Some v) as Hf.
    { destruct (same_config_run ops (Fitter_init c udp p kw)) as (Hc & _ & _).
      fold s in Hc. by rewrite Hc. }
    rewrite Fitter_getattr_eq, Hp.
    destruct (get_learner_None_val s v Hf) as (msg & -> & Hmsg). eauto.
Qed.

(** Witness for C6: reading [a] from a [TreeOrLinearFitter] before and
    after an invocation on discrete data. *)
Lemma C6_witness :
  let s := Fitter_init Samples.TreeOrLinearFitter (PBool false) PNone Samples.abc in
  (∃ msg, Fitter_getattr "a" s = (s, inl (AttributeError msg)) ∧ msg = no_learner_msg) ∧
  (∃ l o, heap (Fitter_call Samples.discrete_data s).1 !! l = Some o ∧
     Fitter_getattr "a" (Fitter_call Samples.discrete_data s).1
     = ((Fitter_call Samples.discrete_data s).1,
        match obj_attrs o !! "a" with
        | Some v => inr v
        | None => inl (AttributeError (no_attribute (lc_name (obj_class o)) "a"))
        end)).
Proof.
  intros s.
  destruct (C6_attribute_proxy Samples.TreeOrLinearFitter (PBool false) PNone Samples.abc []
              Samples.discrete_data "a") as [H1 H2].
  split.
  - destruct (H2 eq_refl _ eq_refl) as (_ & msg & Hm & Hlt).
    exists msg. split; [exact Hm|]. exact (Hlt _ eq_refl).
  - assert ((Fitter_call Samples.discrete_data s).2 = inr (PObj "TreeModel")) as Hc
      by (vm_compute; reflexivity).
    destruct (H1 _ Hc) as (l & o & _ & _ & Ho & Hg).
    exists l, o. split; [exact Ho|exact Hg].
Defined.

(** ** C7 *)

(** C7. [__init__] stores the preprocessing value in the configuration
    under the key [preprocessors], and no method changes it or the fitter's
    [use_default_preprocessors]; and every learner [get_learner] returns,
    freshly built or cached, whatever its constructor accepts, carries in
    its attribute [use_default_preprocessors] the value of the fitter's. *)
Theorem C7_preprocessing_propagated c udp p kw ops pt l :
  let s := run ops (Fitter_init c udp p kw) in
  let s' := (get_learner pt s).1 in
  kwargs (Fitter_init c udp p kw) !! "preprocessors" = Some p ∧
  kwargs s !! "preprocessors" = Some p ∧
  use_default_preprocessors s = udp ∧
  ((get_learner pt s).2 = inr l →
   ∃ l' o, l = Some l' ∧ heap s' !! l' = Some o ∧
     use_default_preprocessors s' = udp ∧
     obj_attrs o !! "use_default_preprocessors" = Some udp).
Proof.
  intros s s'.
  destruct (same_config_run ops (Fitter_init c udp p kw)) as (_ & Hkw & Hudp). fold s in Hkw, Hudp.
  split; [apply lookup_insert_eq|]. split; [rewrite Hkw; apply lookup_insert_eq|].
  split; [done|]. intros Hr.
  assert (get_learner pt s = (s', inr l)) as Hg.
  { subst s'. rewrite <-Hr. by destruct (get_learner pt s). }
  clearbody s'.
  destruct (get_learner_result _ _ _ _ Hg) as (k & l' & -> & -> & Hl).
  assert (inv s') as Hi.
  { replace s' with (get_learner (Some k) s).1 by by rewrite Hg.
    apply inv_get_learner, run_init_inv. }
  assert (use_default_preprocessors s' = udp) as Hudp'.
  { destruct (get_learner_same_config (Some k) s) as (_ & _ & Hu).
    rewrite Hg in Hu. simpl in Hu, Hudp. congruence. }
  destruct (inv_cached s' Hi k l' Hl) as (_ & _ & _ & o & _ & _ & _ & _ & Ho & _ & Ha).
  exists l', o. split_and!; try done. by rewrite <-Hudp'.
Qed.

(** Witness for C7: [TreeClassifier] does not accept [preprocessors], so the
    key is filtered out of its arguments, and the flag is set all the same. *)
Lemma C7_witness :
  let s := Fitter_init Samples.TreeOrLinearFitter (PBool true) (PObj "Normalize") Samples.abc in
  ("preprocessors" ∉ accepted Samples.TreeClassifier) ∧
  kwargs s !! "preprocessors" = Some (PObj "Normalize") ∧
  ∃ l' o, heap (get_learner (Some CLASSIFICATION) s).1 !! l' = Some o ∧
    obj_attrs o !! "use_default_preprocessors" = Some (PBool true).
Proof.
  intros s.
  destruct (C7_preprocessing_propagated Samples.TreeOrLinearFitter (PBool true)
              (PObj "Normalize") Samples.abc [] (Some CLASSIFICATION) (Some 0))
    as (H1 & _ & _ & H2).
  split; [by vm_compute|]. split; [exact H1|].
  assert ((get_learner (Some CLASSIFICATION) s).2 = inr (Some 0)) as Hg
    by (vm_compute; reflexivity).
  destruct (H2 Hg) as (l' & o & _ & Ho & _ & Ha).
  exists l', o. split; [exact Ho|exact Ha].
Defined.

(** ** C8 *)

(** C8, as stated, fails: a fitter binding both kinds, invoked on discrete
    and then on continuous data, ends with both slots populated, one of
    them not the slot of the problem type now recorded. *)
Lemma C8_counterexample :
  let s := run [Call Samples.discrete_data; Call Samples.continuous_data]
             (Fitter_init Samples.TreeOrLinearFitter (PBool false) PNone Samples.abc) in
  __learners s !! CLASSIFICATION = Some (Some 0) ∧
  __learners s !! REGRESSION = Some (Some 1) ∧
  problem_type s = Some REGRESSION.
Proof. by vm_compute. Qed.

(** C8, amended.  For every instance and every sequence of invocations on
    datasets that all have the same target kind [k], the slot of the other
    kind stays empty, so at most one slot is populated, and a populated slot
    is the one of the problem type recorded. *)
Theorem C8_single_kind_single_slot c udp p kw ds k :
  Forall (λ d, data_kind d = k) ds →
  let s := run (Call <$> ds) (Fitter_init c udp p kw) in
  __learners s !! other_kind k = Some None ∧
  (∀ k' l, __learners s !! k' = Some (Some l) → k' = k ∧ problem_type s = Some k).
Proof.
  intros Hds s.
  assert (__learners s !! other_kind k = Some None ∧
          (problem_type s = Some k ∨ __learners s !! k = Some None)) as [Ho Hk].
  { subst s. assert (∀ s0 : State,
      __learners s0 !! other_kind k = Some None ∧
        (problem_type s0 = Some k ∨ __learners s0 !! k = Some None) →
      __learners (run (Call <$> ds) s0) !! other_kind k = Some None ∧
        (problem_type (run (Call <$> ds) s0) = Some k
         ∨ __learners (run (Call <$> ds) s0) !! k = Some None)) as Hrun.
    { induction Hds as [|d ds Hd Hds IH]; intros s0 Hs0; [done|].
      simpl. apply IH. split.
      - rewrite Fitter_call_state, get_learner_other_slot; [apply Hs0|].
        rewrite Hd. intros [=]. by apply (other_kind_ne k).
      - left. by rewrite Fitter_call_problem_type, Hd. }
    apply Hrun. split; [by destruct k|]. right. by destruct k. }
  split; [done|]. intros k' l Hl.
  assert (k' = k) as ->.
  { destruct (decide (k' = k)) as [|Hne]; [done|].
    assert (k' = other_kind k) as -> by (by destruct k, k'). congruence. }
  split; [done|]. destruct Hk as [?|Hk]; [done|congruence].
Qed.

(** Witness for C8: three invocations on discrete data. *)
Lemma C8_witness :
  let s := run (Call <$> [Samples.discrete_data; Samples.discrete_data; Samples.discrete_data])
             (Fitter_init Samples.TreeOrLinearFitter (PBool false) PNone Samples.abc) in
  __learners s !! REGRESSION = Some None ∧
  (∀ k' l, __learners s !! k' = Some (Some l) →
     k' = CLASSIFICATION ∧ problem_type s = Some CLASSIFICATION).
Proof.
  apply (C8_single_kind_single_slot Samples.TreeOrLinearFitter (PBool false) PNone Samples.abc
           [Samples.discrete_data; Samples.discrete_data; Samples.discrete_data]
           CLASSIFICATION).
  repeat constructor.
Defined.

(** ** C9 *)

Lemma local_variable_accepted (code : Code) x :
  0 < co_nparams code → x ∈ local_variables code → x ∈ drop 1 (co_varnames code).
Proof.
  unfold local_variables. intros Hn [i Hi]%list_elem_of_lookup.
  rewrite lookup_drop in Hi. apply list_elem_of_lookup.
  exists (co_nparams code - 1 + i). rewrite lookup_drop. rewrite <-Hi. f_equal. lia.
Qed.

(** C9. The names [_get_learner_kwargs] returns are all the variable names
    of the constructor's code object but the first: the declared parameters
    after [self] and the local variables of the body.  So when the
    constructor of the learner to build has a local variable whose name is a
    key of the stored configuration, that entry is among the keyword
    arguments the constructor is called with. *)
Theorem C9_local_variable_names_pass_filter s lt k lc x v :
  fits_is s lt → slot lt k = Some lc → __learners s !! k = Some None →
  0 < co_nparams (lc_init_code lc) →
  x ∈ local_variables (lc_init_code lc) →
  kwargs s !! x = Some v →
  _get_learner_kwargs (Some lc)
  = inr (list_to_set (drop 1 (declared_params (lc_init_code lc)
                              ++ local_variables (lc_init_code lc)))) ∧
  x ∈ accepted lc ∧
  ∃ call, last (ctor_log (get_learner (Some k) s).1) = Some call ∧
    cc_class call = lc_name lc ∧ cc_kwargs call !! x = Some v.
Proof.
  intros Hf Hs Hl Hn Hx Hv.
  assert (x ∈ accepted lc) as Ha.
  { apply elem_of_list_to_set. by apply local_variable_accepted. }
  split; [|split; [done|]].
  - unfold _get_learner_kwargs, declared_params, local_variables. by rewrite take_drop.
  - assert (filter_kwargs (accepted lc) (kwargs s) !! x = Some v) as Hp.
    { by rewrite filter_kwargs_lookup, decide_True. }
    destruct (lc_init lc (filter_kwargs (accepted lc) (kwargs s))) as [e|attrs] eqn:Hi.
    + rewrite (get_learner_ctor_raises s lt k lc e) by done. simpl.
      rewrite last_snoc. eauto.
    + rewrite (get_learner_build s lt k lc attrs) by done. simpl.
      rewrite last_snoc. eauto.
Qed.

(** Witness for C9: [ScratchLearner.__init__(self, a)] has the local [tmp];
    with the configuration [{a: 1, tmp: 2}] the constructor is called with
    [tmp] although it is not a declared parameter (and raises on it). *)
Lemma C9_witness :
  let s := Fitter_init Samples.ScratchFitter (PBool false) PNone
             (<["a" := PInt 1]> (<["tmp" := PInt 2]> ∅)) in
  ("tmp" ∉ declared_params Samples.scratch_code) ∧
  (∃ call, last (ctor_log (get_learner (Some CLASSIFICATION) s).1) = Some call ∧
     cc_class call = "ScratchLearner" ∧ cc_kwargs call !! "tmp" = Some (PInt 2)) ∧
  (get_learner (Some CLASSIFICATION) s).2
  = inl (Propagated "TypeError: __init__() got an unexpected keyword argument").
Proof.
  intros s.
  destruct (C9_local_variable_names_pass_filter s Samples.scratch CLASSIFICATION
              Samples.ScratchLearner "tmp" (PInt 2)) as (_ & _ & H);
    [reflexivity | reflexivity | reflexivity | simpl; lia | | reflexivity |].
  { apply list_elem_of_here. }
  split; [|split; [exact H|by vm_compute]].
  unfold declared_params. simpl. rewrite !not_elem_of_cons.
  split_and!; try done. apply not_elem_of_nil.
Defined.

(** ** C10 *)

Lemma Fitter_getattr_unbound s lt k item :
  fits_is s lt → slot lt k = None → problem_type s = Some k →
  Fitter_getattr item s = (s, inl (AttributeError no_learner_msg)).
Proof.
  intros Hf Hs Hp. rewrite Fitter_getattr_eq, Hp.
  by rewrite (get_learner_unbound s lt k).
Qed.

Lemma Fitter_call_unbound s lt d :
  fits_is s lt → slot lt (data_kind d) = None →
  Fitter_call d s
  = (set_problem_type (Some (data_kind d)) s, inl (AttributeError no_learner_msg)).
Proof.
  intros Hf Hs. rewrite Fitter_call_eq.
  by rewrite (get_learner_unbound (set_problem_type (Some (data_kind d)) s) lt (data_kind d)).
Qed.

(** C10. An invocation on a dataset whose kind the binding leaves unbound
    ends in the "no learner defined" error with the recorded problem type
    already overwritten by that kind, and nothing else changed; from then on
    every read through [__getattr__] raises that same error and leaves the
    state as it is, however many reads follow. *)
Theorem C10_failed_invoke_keeps_unsupported_kind s lt d :
  fits_is s lt → slot lt (data_kind d) = None →
  let s' := set_problem_type (Some (data_kind d)) s in
  Fitter_call d s = (s', inl (AttributeError no_learner_msg)) ∧
  problem_type s' = Some (data_kind d) ∧
  (∀ item, Fitter_getattr item s' = (s', inl (AttributeError no_learner_msg))) ∧
  (∀ items, run (GetAttr <$> items) s' = s').
Proof.
  intros Hf Hs s'.
  assert (∀ item, Fitter_getattr item s' = (s', inl (AttributeError no_learner_msg))) as Hg.
  { intros item. by apply (Fitter_getattr_unbound s' lt (data_kind d)). }
  split_and!; [|done|done|].
  - by apply (Fitter_call_unbound s lt d).
  - intros items. induction items as [|item items IH]; [done|].
    simpl. by rewrite Hg.
Qed.

(** Witness for C10: a [TreeFitter] invoked on continuous data, then read
    twice. *)
Lemma C10_witness :
  let s := Fitter_init Samples.TreeFitter (PBool false) PNone Samples.abc in
  let s' := set_problem_type (Some REGRESSION) s in
  problem_type s = None ∧
  Fitter_call Samples.continuous_data s = (s', inl (AttributeError no_learner_msg)) ∧
  Fitter_getattr "a" s' = (s', inl (AttributeError no_learner_msg)) ∧
  run [GetAttr "a"; GetAttr "domain"] s' = s'.
Proof.
  intros s s'.
  destruct (C10_failed_invoke_keeps_unsupported_kind s Samples.only_classification
              Samples.continuous_data eq_refl eq_refl) as (H1 & _ & H2 & H3).
  split; [reflexivity|]. split; [exact H1|]. split; [exact (H2 "a")|].
  exact (H3 ["a"; "domain"]).
Defined.

(** * Further properties of the module *)

(** ** The metaclass and the binding seen by instances *)

Lemma class_getattr_own name bases (body : gmap string nsval) a v :
  body !! a = Some v → class_getattr (mkClass name bases body) a = Some v.
Proof. intros H. simpl. by rewrite H. Qed.

Lemma class_getattr_parent name parent (body : gmap string nsval) a v :
  body !! a = None → class_getattr parent a = Some v →
  class_getattr (mkClass name [parent] body) a = Some v.
Proof. intros Hb Hp. simpl. by rewrite Hb, Hp. Qed.

(** X1. Whenever the metaclass accepts a class whose body binds a truthy
    [name], the body binds [__fits__] to a [LearnerTypes] value, and that
    value is the binding every instance of the class sees, after any calls:
    a named fitter never meets a missing binding at use. *)
Theorem X1_accepted_named_class_has_binding name bases (body : gmap string nsval) c :
  FitterMeta_new name bases body = inr c →
  truthy (default (NsBool false) (body !! "name")) = true →
  ∃ lt, body !! "__fits__" = Some (NsLearnerTypes lt) ∧
    ∀ udp p kw ops, fits_is (run ops (Fitter_init c udp p kw)) lt.
Proof.
  unfold FitterMeta_new. intros Hnew Hname. rewrite Hname in Hnew.
  destruct (body !! "__fits__") as [[| | | |lt|]|] eqn:Hb; simpl in Hnew; try discriminate.
  injection Hnew as <-. exists lt. split; [done|].
  intros udp p kw ops. apply run_init_fits. by apply class_getattr_own.
Qed.

Lemma X1_witness :
  ∃ lt, Samples.named_body "tree" Samples.only_classification !! "__fits__"
        = Some (NsLearnerTypes lt) ∧
    ∀ udp p kw ops, fits_is (run ops (Fitter_init Samples.TreeFitter udp p kw)) lt.
Proof.
  apply (X1_accepted_named_class_has_binding "TreeFitter" [Fitter]
           (Samples.named_body "tree" Samples.only_classification) Samples.TreeFitter);
    reflexivity.
Defined.

(** X2. The metaclass looks at the class body only: a subclass that binds a
    truthy [name] and leaves [__fits__] to be inherited is rejected, although
    the class lookup through its parent would find a valid binding. *)
Theorem X2_named_subclass_must_rebind_fits name parent (body : gmap string nsval) lt :
  class_getattr parent "__fits__" = Some (NsLearnerTypes lt) →
  truthy (default (NsBool false) (body !! "name")) = true →
  body !! "__fits__" = None →
  FitterMeta_new name [parent] body = inl (AssertionError invalid_fits_msg) ∧
  class_getattr (mkClass name [parent] body) "__fits__" = Some (NsLearnerTypes lt).
Proof.
  intros Hp Hname Hb. split.
  - unfold FitterMeta_new. by rewrite Hname, Hb.
  - by apply class_getattr_parent.
Qed.

Lemma X2_witness :
  FitterMeta_new "PrunedTreeFitter" [Samples.TreeFitter] (<["name" := NsStr "pruned tree"]> ∅)
  = inl (AssertionError invalid_fits_msg) ∧
  class_getattr (mkClass "PrunedTreeFitter" [Samples.TreeFitter]
                   (<["name" := NsStr "pruned tree"]> ∅)) "__fits__"
  = Some (NsLearnerTypes Samples.only_classification).
Proof.
  apply (X2_named_subclass_must_rebind_fits "PrunedTreeFitter" Samples.TreeFitter
           (<["name" := NsStr "pruned tree"]> ∅) Samples.only_classification);
    reflexivity.
Defined.

(** ** Fitters on which every call fails *)

(** When [get_learner] ends in the same exception on every state of the
    class, no run of calls ever builds or caches anything, and every call
    ends in that exception. *)
Lemma run_always_failing (E : exn) ops s o :
  (∀ pt s', cls s' = cls s → get_learner pt s' = (s', inl E)) →
  heap (run ops s) = heap s ∧ ctor_log (run ops s) = ctor_log s ∧
  __learners (run ops s) = __learners s ∧
  op_error o (run ops s) = Some E.
Proof.
  intros HE.
  assert (∀ s', cls s' = cls s →
    heap (run ops s') = heap s' ∧ ctor_log (run ops s') = ctor_log s' ∧
    __learners (run ops s') = __learners s' ∧ cls (run ops s') = cls s) as Hrun.
  { induction ops as [|o' ops IH]; intros s' Hc; [done|]. simpl.
    assert (∃ pt, step s' o' = set_problem_type pt s') as [pt Hst].
    { destruct o' as [d|pt|item]; simpl.
      - rewrite Fitter_call_state, HE by done. eauto.
      - rewrite HE by done. exists (problem_type s'). by destruct s'.
      - rewrite Fitter_getattr_state, HE by done. exists (problem_type s'). by destruct s'. }
    rewrite Hst. apply (IH (set_problem_type pt s')). done. }
  destruct (Hrun s eq_refl) as (Hh & Hg & Hl & Hc). split_and!; try done.
  destruct o as [d|pt|item]; simpl.
  - rewrite Fitter_call_eq, HE by done. done.
  - by rewrite HE.
  - rewrite Fitter_getattr_eq, HE by done. done.
Qed.

(** X3. A body binding [__fits__] to [LearnerTypes(None, None)] has the
    required shape, so the metaclass accepts it under any name; but on
    every instance, after any calls, nothing is ever built or cached and
    every [__call__], [get_learner] and [__getattr__] raises the "no learner
    defined" error. *)
Theorem X3_empty_binding_accepted_but_unusable name bases (body : gmap string nsval)
    udp p kw ops o :
  body !! "__fits__" = Some (NsLearnerTypes {| classification := None; regression := None |}) →
  let c := mkClass name bases body in
  let s := run ops (Fitter_init c udp p kw) in
  FitterMeta_new name bases body = inr c ∧
  heap s = [] ∧ ctor_log s = [] ∧ (∀ k, __learners s !! k = Some None) ∧
  op_error o s = Some (AttributeError no_learner_msg).
Proof.
  intros Hb c s. split.
  { unfold FitterMeta_new. rewrite Hb. simpl. by rewrite andb_false_r. }
  destruct (run_always_failing (AttributeError no_learner_msg) ops
              (Fitter_init c udp p kw) o) as (Hh & Hg & Hl & He).
  { intros pt s' Hc.
    assert (fits_is s' {| classification := None; regression := None |}) as Hf.
    { unfold fits_is. rewrite Hc. by apply class_getattr_own. }
    destruct pt as [k|].
    - apply (get_learner_unbound s' _ k Hf). by destruct k.
    - by apply (get_learner_None s' _ Hf). }
  split_and!; try done. intros k. unfold s. rewrite Hl. by destruct k.
Qed.

Lemma X3_witness :
  let s := run [Call Samples.discrete_data; GetAttr "a"]
             (Fitter_init Samples.EmptyFitter (PBool false) PNone Samples.abc) in
  FitterMeta_new "EmptyFitter" [Fitter] (Samples.named_body "empty" Samples.neither)
  = inr Samples.EmptyFitter ∧
  heap s = [] ∧ ctor_log s = [] ∧ (∀ k, __learners s !! k = Some None) ∧
  op_error (Call Samples.continuous_data) s = Some (AttributeError no_learner_msg).
Proof.
  apply (X3_empty_binding_accepted_but_unusable "EmptyFitter" [Fitter]
           (Samples.named_body "empty" Samples.neither)).
  reflexivity.
Defined.

(** X4. When the value of [__fits__] has no [classification] attribute
    ([None] as in [Fitter] itself, a number, a string, or any other object
    without that attribute, in a subclass the metaclass did not check), the
    class fails only at use: on every instance, after any calls, every
    [__call__], [get_learner] and [__getattr__] raises the attribute error
    of reading [classification] from that value, and nothing is built or
    cached. *)
Theorem X4_fits_without_classification_fails_at_every_use c v e udp p kw ops o :
  class_getattr c "__fits__" = Some v →
  fits_attr "classification" classification po_classification v = inl e →
  let s := run ops (Fitter_init c udp p kw) in
  e = AttributeError (no_attribute (type_name v) "classification") ∧
  heap s = [] ∧ ctor_log s = [] ∧ (∀ k, __learners s !! k = Some None) ∧
  op_error o s = Some e.
Proof.
  intros Hc Hv s.
  assert (e = AttributeError (no_attribute (type_name v) "classification")) as He.
  { unfold fits_attr in Hv. destruct v as [| | | |lt|ob]; simpl in *; try congruence.
    destruct (po_classification ob); congruence. }
  destruct (run_always_failing e ops (Fitter_init c udp p kw) o) as (Hh & Hg & Hl & Herr).
  { intros pt s' Hcs. apply (get_learner_guard_raises s' v pt e).
    - unfold fits_val. by rewrite Hcs.
    - unfold handled_of. by rewrite Hv. }
  split_and!; try done. intros k. unfold s. rewrite Hl. by destruct k.
Qed.

Lemma X4_witness :
  let s := run [GetLearner (Some CLASSIFICATION)] (Fitter_init Fitter (PBool false) PNone ∅) in
  AttributeError "'NoneType' object has no attribute 'classification'"
  = AttributeError (no_attribute (type_name NsNone) "classification") ∧
  heap s = [] ∧ ctor_log s = [] ∧ (∀ k, __learners s !! k = Some None) ∧
  op_error (Call Samples.discrete_data) s
  = Some (AttributeError "'NoneType' object has no attribute 'classification'").
Proof.
  apply (X4_fits_without_classification_fails_at_every_use Fitter NsNone); reflexivity.
Defined.

(** ** The store and the cache over time *)

Lemma get_learner_stable pt s k l o :
  __learners s !! k = Some (Some l) → heap s !! l = Some o →
  __learners (get_learner pt s).1 !! k = Some (Some l) ∧
  heap (get_learner pt s).1 !! l = Some o ∧
  heap s `prefix_of` heap (get_learner pt s).1.
Proof.
  intros Hl Ho.
  destruct (get_learner_cases pt s) as [| | v types k' lc attrs ? ? ? ? ? Hk' |];
    simpl; try done.
  split_and!.
  - rewrite lookup_insert_ne; [done|]. intros ->. congruence.
  - by apply lookup_app_l_Some.
  - by apply prefix_app_r.
Qed.

Lemma step_stable s o' k l o :
  __learners s !! k = Some (Some l) → heap s !! l = Some o →
  __learners (step s o') !! k = Some (Some l) ∧
  heap (step s o') !! l = Some o ∧
  heap s `prefix_of` heap (step s o').
Proof.
  intros Hl Ho. destruct o' as [d|pt|item]; simpl.
  - rewrite Fitter_call_state.
    by apply (get_learner_stable _ (set_problem_type (Some (data_kind d)) s)).
  - by apply get_learner_stable.
  - rewrite Fitter_getattr_state. by apply get_learner_stable.
Qed.

Lemma run_stable ops s k l o :
  __learners s !! k = Some (Some l) → heap s !! l = Some o →
  __learners (run ops s) !! k = Some (Some l) ∧
  heap (run ops s) !! l = Some o ∧
  heap s `prefix_of` heap (run ops s).
Proof.
  revert s. induction ops as [|o' ops IH]; intros s Hl Ho; [done|]. simpl.
  destruct (step_stable s o' k l o Hl Ho) as (Hl' & Ho' & Hp).
  destruct (IH _ Hl' Ho') as (? & ? & ?). split_and!; try done. by etrans.
Qed.

Lemma get_learner_slot_stable pt s k l :
  __learners s !! k = Some (Some l) →
  __learners (get_learner pt s).1 !! k = Some (Some l).
Proof.
  intros Hl.
  destruct (get_learner_cases pt s) as [| | v types k' lc attrs ? ? ? ? ? Hk' |];
    simpl; try done.
  rewrite lookup_insert_ne; [done|]. intros ->. congruence.
Qed.

(** X5. [get_learner] writes a slot of [self.__learners] only while it is
    empty, and no other method writes the cache: once a learner is cached
    for a problem type, the slot holds that same learner after any sequence
    of calls, of either kind, failing or not. *)
Theorem X5_cached_learner_is_never_replaced s ops k l :
  __learners s !! k = Some (Some l) →
  __learners (run ops s) !! k = Some (Some l).
Proof.
  revert s. induction ops as [|o ops IH]; intros s Hl; [done|].
  simpl. apply IH. destruct o as [d|pt|item]; simpl.
  - rewrite Fitter_call_state.
    by apply (get_learner_slot_stable _ (set_problem_type (Some (data_kind d)) s)).
  - by apply get_learner_slot_stable.
  - rewrite Fitter_getattr_state. by apply get_learner_slot_stable.
Qed.

Lemma X5_witness :
  let s := (Fitter_call Samples.discrete_data
              (Fitter_init Samples.TreeOrLinearFitter (PBool false) PNone Samples.abc)).1 in
  let s' := run [Call Samples.continuous_data; GetAttr "b"; Call Samples.discrete_data] s in
  __learners s !! CLASSIFICATION = Some (Some 0) ∧
  __learners s' !! CLASSIFICATION = Some (Some 0).
Proof.
  intros s s'. split; [reflexivity|].
  apply (X5_cached_learner_is_never_replaced s
           [Call Samples.continuous_data; GetAttr "b"; Call Samples.discrete_data]
           CLASSIFICATION 0); reflexivity.
Defined.

Lemma inv_store_init c udp p kw : inv_store (Fitter_init c udp p kw).
Proof.
  split; simpl.
  - done.
  - intros [] l; [rewrite lookup_insert_eq | rewrite lookup_insert_ne, lookup_insert_eq by done];
      intros; discriminate.
  - intros [] k2 l; [rewrite lookup_insert_eq | rewrite lookup_insert_ne, lookup_insert_eq by done];
      intros; discriminate.
Qed.

Lemma inv_store_after_build s k lc attrs :
  __learners s !! k = Some None → inv_store s → inv_store (after_build k lc attrs s).
Proof.
  intros Hl [Hsz Hb Hd]. split.
  - simpl. rewrite length_app, Hsz. unfold populated, slot_filled. simpl.
    destruct k; rewrite lookup_insert_eq, lookup_insert_ne by done; simpl in *;
      rewrite Hl; simpl; lia.
  - intros k' l. simpl. rewrite length_app. simpl.
    destruct (decide (k = k')) as [->|Hne].
    + rewrite lookup_insert_eq. intros [= <-]. lia.
    + rewrite lookup_insert_ne by done. intros Hk. specialize (Hb k' l Hk). lia.
  - intros k1 k2 l. simpl.
    destruct (decide (k1 = k)) as [->|Hne1], (decide (k2 = k)) as [->|Hne2]; [done|..].
    + rewrite lookup_insert_eq, lookup_insert_ne by congruence. intros [= <-] Hk.
      specialize (Hb k2 _ Hk). lia.
    + rewrite lookup_insert_eq, lookup_insert_ne by congruence. intros Hk [= <-].
      specialize (Hb k1 _ Hk). lia.
    + rewrite !lookup_insert_ne by congruence. apply Hd.
Qed.

Lemma inv_store_get_learner pt s : inv_store s → inv_store (get_learner pt s).1.
Proof.
  intros Hi. destruct (get_learner_cases pt s); simpl; try done.
  - by apply inv_store_after_build.
  - by destruct Hi.
Qed.

Lemma inv_store_run ops s : inv_store s → inv_store (run ops s).
Proof.
  revert s. induction ops as [|o ops IH]; intros s Hi; [done|]. simpl. apply IH.
  destruct o as [d|pt|item]; simpl.
  - rewrite Fitter_call_state. apply inv_store_get_learner. by destruct Hi.
  - by apply inv_store_get_learner.
  - rewrite Fitter_getattr_state. by apply inv_store_get_learner.
Qed.

(** X6. After any calls on a fresh instance the store holds exactly as many
    learner objects as there are populated slots (so never more than two),
    and the two slots never hold the same object: each problem type gets an
    instance of its own, also when both are bound to the same class. *)
Theorem X6_one_learner_object_per_populated_slot c udp p kw ops :
  let s := run ops (Fitter_init c udp p kw) in
  length (heap s) = populated s ∧ length (heap s) <= 2 ∧
  (∀ l1 l2, __learners s !! CLASSIFICATION = Some (Some l1) →
            __learners s !! REGRESSION = Some (Some l2) → l1 ≠ l2).
Proof.
  intros s.
  destruct (inv_store_run ops _ (inv_store_init c udp p kw)) as [Hsz Hb Hd]. fold s in Hsz, Hb, Hd.
  split; [done|]. split.
  - rewrite Hsz. unfold populated, slot_filled.
    destruct (__learners s !! CLASSIFICATION) as [[?|]|],
             (__learners s !! REGRESSION) as [[?|]|]; simpl; lia.
  - intros l1 l2 H1 H2 ->. by specialize (Hd _ _ _ H1 H2).
Qed.

(** ** Constructor failures *)

Lemma Fitter_call_ctor_raises s lt d lc e :
  fits_is s lt → slot lt (data_kind d) = Some lc →
  __learners s !! data_kind d = Some None →
  lc_init lc (filter_kwargs (accepted lc) (kwargs s)) = inl e →
  Fitter_call d s
  = (set_ctor_log (ctor_log s ++
       [Build_CtorCall (Some (data_kind d)) (lc_name lc)
          (filter_kwargs (accepted lc) (kwargs s)) None])
       (set_problem_type (Some (data_kind d)) s),
     inl (Propagated e)).
Proof.
  intros Hf Hs Hl Hi. rewrite Fitter_call_eq.
  by rewrite (get_learner_ctor_raises (set_problem_type (Some (data_kind d)) s)
                lt (data_kind d) lc e).
Qed.

(** X7. When the constructor of the learner for the dataset's kind raises,
    the invocation passes that exception on and caches nothing, and the
    failure is not remembered: each of [n] further invocations of that kind
    calls the constructor again with the same arguments, so the log grows by
    [n] failed calls while store and cache stay as they were. *)
Theorem X7_failed_construction_is_retried s lt d lc e n :
  fits_is s lt → slot lt (data_kind d) = Some lc →
  __learners s !! data_kind d = Some None →
  lc_init lc (filter_kwargs (accepted lc) (kwargs s)) = inl e →
  let s' := run (replicate n (Call d)) s in
  (Fitter_call d s).2 = inl (Propagated e) ∧
  (Fitter_call d s').2 = inl (Propagated e) ∧
  __learners s' = __learners s ∧ heap s' = heap s ∧
  ctor_log s'
  = (ctor_log s ++ replicate n (Build_CtorCall (Some (data_kind d)) (lc_name lc)
                                  (filter_kwargs (accepted lc) (kwargs s)) None))%list.
Proof.
  intros Hf Hs Hl Hi s'.
  assert (fits_is s' lt ∧ kwargs s' = kwargs s ∧ __learners s' = __learners s ∧
          heap s' = heap s ∧
          ctor_log s'
          = (ctor_log s ++ replicate n (Build_CtorCall (Some (data_kind d)) (lc_name lc)
                                          (filter_kwargs (accepted lc) (kwargs s)) None))%list)
    as (Hf' & Hkw & Hl' & Hh & Hg).
  { subst s'. revert s Hf Hl Hi. induction n as [|n IH]; intros s Hf Hl Hi.
    - simpl. by rewrite app_nil_r.
    - simpl. rewrite (Fitter_call_ctor_raises s lt d lc e) by done. simpl.
      destruct (IH (set_ctor_log (ctor_log s ++
                     [Build_CtorCall (Some (data_kind d)) (lc_name lc)
                        (filter_kwargs (accepted lc) (kwargs s)) None])
                     (set_problem_type (Some (data_kind d)) s)))
        as (? & ? & ? & ? & Hlog); [done..|].
      split_and!; try done. rewrite Hlog. simpl. by rewrite <-app_assoc. }
  split; [by rewrite (Fitter_call_ctor_raises s lt d lc e)|].
  split; [|done].
  rewrite (Fitter_call_ctor_raises s' lt d lc e); try done; by rewrite ?Hl', ?Hkw.
Qed.

Lemma X7_witness :
  let s := Fitter_init Samples.PickyFitter (PBool false) PNone Samples.abc in
  let s' := run (replicate 3 (Call Samples.discrete_data)) s in
  (Fitter_call Samples.discrete_data s).2 = inl (Propagated "ValueError") ∧
  (Fitter_call Samples.discrete_data s').2 = inl (Propagated "ValueError") ∧
  __learners s' = __learners s ∧ heap s' = [] ∧
  ctor_log s'
  = replicate 3 (Build_CtorCall (Some CLASSIFICATION) "PickyLearner"
                   (filter_kwargs (accepted Samples.PickyLearner) (kwargs s)) None).
Proof.
  apply (X7_failed_construction_is_retried
           (Fitter_init Samples.PickyFitter (PBool false) PNone Samples.abc)
           Samples.picky Samples.discrete_data Samples.PickyLearner "ValueError" 3);
    reflexivity.
Defined.

(** ** What reaches the learner, and what comes back through the proxy *)

(** X8. [__init__] always writes the key [preprocessors] into the
    configuration, also when the caller gave none (the value is then
    [None]); so a learner whose constructor has a variable of that name is
    always called with [preprocessors] set to the fitter's value, never with
    its own default. *)
Theorem X8_preprocessors_always_passed_when_accepted c udp p kw ops lt k lc :
  class_getattr c "__fits__" = Some (NsLearnerTypes lt) →
  slot lt k = Some lc →
  "preprocessors" ∈ accepted lc →
  let s := run ops (Fitter_init c udp p kw) in
  __learners s !! k = Some None →
  ∃ call, last (ctor_log (get_learner (Some k) s).1) = Some call ∧
    cc_kind call = Some k ∧ cc_kwargs call !! "preprocessors" = Some p.
Proof.
  intros Hc Hs Ha s Hl.
  pose proof (run_init_fits c udp p kw ops lt Hc) as Hf. fold s in Hf.
  assert (filter_kwargs (accepted lc) (kwargs s) !! "preprocessors" = Some p) as Hp.
  { rewrite filter_kwargs_lookup, decide_True by done.
    destruct (same_config_run ops (Fitter_init c udp p kw)) as (_ & Hkw & _).
    fold s in Hkw. rewrite Hkw. apply lookup_insert_eq. }
  destruct (lc_init lc (filter_kwargs (accepted lc) (kwargs s))) as [e|attrs] eqn:Hi.
  - rewrite (get_learner_ctor_raises s lt k lc e) by done. simpl.
    rewrite last_snoc. eauto.
  - rewrite (get_learner_build s lt k lc attrs) by done. simpl.
    rewrite last_snoc. eauto.
Qed.

Lemma X8_witness :
  let s := run [Call Samples.discrete_data]
             (Fitter_init Samples.TreeOrLinearFitter (PBool false) PNone Samples.abc) in
  ∃ call, last (ctor_log (get_learner (Some REGRESSION) s).1) = Some call ∧
    cc_kind call = Some REGRESSION ∧ cc_kwargs call !! "preprocessors" = Some PNone.
Proof.
  apply (X8_preprocessors_always_passed_when_accepted Samples.TreeOrLinearFitter (PBool false)
           PNone Samples.abc [Call Samples.discrete_data] Samples.both REGRESSION
           Samples.LinearRegression); reflexivity.
Defined.

(** X9. The learner [get_learner] builds is an instance of the class bound
    for the problem type whose attributes are those its constructor left on
    the filtered arguments, with [use_default_preprocessors] rebound to the
    fitter's value: the assignment after construction overrides whatever the
    constructor stored under that name and touches no other attribute. *)
Theorem X9_flag_assignment_overrides_constructor_value s lt k lc attrs :
  fits_is s lt → slot lt k = Some lc → __learners s !! k = Some None →
  lc_init lc (filter_kwargs (accepted lc) (kwargs s)) = inr attrs →
  ∃ l o, (get_learner (Some k) s).2 = inr (Some l) ∧
    heap (get_learner (Some k) s).1 !! l = Some o ∧
    obj_class o = lc ∧
    obj_attrs o = <["use_default_preprocessors" := use_default_preprocessors s]> attrs.
Proof.
  intros Hf Hs Hl Hi. rewrite (get_learner_build s lt k lc attrs) by done.
  exists (length (heap s)),
    (set_obj_attr "use_default_preprocessors" (use_default_preprocessors s)
       (Build_LearnerObj lc attrs)).
  split; [done|]. split; [|done]. simpl. by apply list_lookup_middle.
Qed.

Lemma X9_witness :
  let s := Fitter_init Samples.FlagFitter (PBool true) PNone
             (<["use_default_preprocessors" := PBool false]> Samples.abc) in
  let attrs := filter_kwargs (accepted Samples.FlagLearner) (kwargs s) in
  attrs !! "use_default_preprocessors" = Some (PBool false) ∧
  ∃ l o, (get_learner (Some CLASSIFICATION) s).2 = inr (Some l) ∧
    heap (get_learner (Some CLASSIFICATION) s).1 !! l = Some o ∧
    obj_class o = Samples.FlagLearner ∧
    obj_attrs o = <["use_default_preprocessors" := PBool true]> attrs.
Proof.
  intros s attrs. split.
  - unfold attrs. rewrite filter_kwargs_lookup. reflexivity.
  - exact (X9_flag_assignment_overrides_constructor_value s Samples.flag CLASSIFICATION
             Samples.FlagLearner attrs eq_refl eq_refl eq_refl eq_refl).
Defined.

(** ** Exceptions that can and cannot arise *)





(** ** What the methods leave alone, and reuse across other calls *)

(** X11. No sequence of calls changes the instance's class, its stored
    configuration or its [use_default_preprocessors]; and calls other than
    [__call__] leave the recorded problem type as it is, so building a
    learner through [get_learner] alone never enables the attribute proxy. *)
Theorem X11_calls_leave_configuration_alone s ops :
  cls (run ops s) = cls s ∧ kwargs (run ops s) = kwargs s ∧
  use_default_preprocessors (run ops s) = use_default_preprocessors s ∧
  (forallb (λ o, negb (is_call o)) ops = true → problem_type (run ops s) = problem_type s).
Proof.
  destruct (same_config_run ops s) as (? & ? & ?). split_and!; try done.
  apply run_no_call_problem_type.
Qed.

Lemma X11_witness :
  let s := Fitter_init Samples.TreeOrLinearFitter (PBool false) PNone Samples.abc in
  problem_type (run [GetLearner (Some CLASSIFICATION); GetAttr "a"] s) = None.
Proof.
  intros s.
  destruct (X11_calls_leave_configuration_alone s [GetLearner (Some CLASSIFICATION); GetAttr "a"])
    as (_ & _ & _ & H).
  exact (H eq_refl).
Defined.

(** X12. A learner cached for a kind on an instance built by [__init__] is
    the one every later invocation of that kind uses, whatever was called in
    between (invocations of the other kind, failed calls, proxy reads): the
    invocation returns what that learner object returns on the dataset, and
    the log still shows one construction for the kind. *)
Theorem X12_later_invocation_reuses_learner_across_calls c udp p kw ops1 ops2 d l o :
  let s := run ops1 (Fitter_init c udp p kw) in
  let s' := run ops2 s in
  __learners s !! data_kind d = Some (Some l) → heap s !! l = Some o →
  (Fitter_call d s').2
  = match lc_call (obj_class o) (obj_attrs o) d with
    | inl e => inl (Propagated e)
    | inr model => inr model
    end ∧
  __learners (Fitter_call d s').1 !! data_kind d = Some (Some l) ∧
  constructions (data_kind d) (ctor_log (Fitter_call d s').1) = 1.
Proof.
  intros s s' Hl Ho.
  destruct (run_stable ops2 s _ l o Hl Ho) as (Hl' & Ho' & _). fold s' in Hl', Ho'.
  assert (inv s') as Hi by apply inv_run, run_init_inv.
  set (s0 := set_problem_type (Some (data_kind d)) s').
  assert (inv s0) as Hi0 by by apply inv_set_problem_type.
  assert (Fitter_call d s'
          = (s0, match lc_call (obj_class o) (obj_attrs o) d with
                 | inl e => inl (Propagated e)
                 | inr model => inr model
                 end)) as ->.
  { rewrite Fitter_call_eq.
    pose proof (get_learner_cached_inv s0 (data_kind d) l Hi0 Hl') as Hg.
    fold s0. rewrite Hg. by apply call_learner_eq. }
  split; [done|]. split; [done|].
  pose proof (inv_count s0 Hi0 (data_kind d)) as Hn.
  change (__learners s0) with (__learners s') in Hn. rewrite Hl' in Hn. exact Hn.
Qed.

Lemma X12_witness :
  let s := run [Call Samples.discrete_data]
             (Fitter_init Samples.TreeOrLinearFitter (PBool false) PNone Samples.abc) in
  let s' := run [Call Samples.continuous_data; GetAttr "zzz"] s in
  ∃ o, heap s !! 0 = Some o ∧
    (Fitter_call Samples.discrete_data s').2
    = match lc_call (obj_class o) (obj_attrs o) Samples.discrete_data with
      | inl e => inl (Propagated e)
      | inr model => inr model
      end ∧
    __learners (Fitter_call Samples.discrete_data s').1 !! CLASSIFICATION = Some (Some 0) ∧
    constructions CLASSIFICATION (ctor_log (Fitter_call Samples.discrete_data s').1) = 1.
Proof.
  intros s s'. eexists. split; [reflexivity|].
  apply (X12_later_invocation_reuses_learner_across_calls Samples.TreeOrLinearFitter
           (PBool false) PNone Samples.abc [Call Samples.discrete_data]
           [Call Samples.continuous_data; GetAttr "zzz"] Samples.discrete_data 0);
    reflexivity.
Defined.

(** X13. The recorded problem type is always the kind of the dataset of the
    most recent [__call__], whether that call returned a model or raised
    (unbound kind, missing binding, failing constructor or failing learner),
    and it is what it was before when nothing was invoked since. *)
Theorem X13_problem_type_follows_last_invocation s ops :
  problem_type (run ops s) = last_kind (problem_type s) ops.
Proof.
  revert s. induction ops as [|o ops IH]; intros s; [done|].
  simpl. rewrite IH. f_equal. destruct o as [d|pt|item]; simpl.
  - apply Fitter_call_problem_type.
  - apply get_learner_problem_type.
  - rewrite Fitter_getattr_state. apply get_learner_problem_type.
Qed.
